(** * AI-ZHIBO: synthesis orchestration and real-time audio delivery

    A shallow embedding of the voice-streaming core of the repository:

    - [src/config/settings.py]            (VoiceProfile, the audio settings),
    - [src/streaming/audio_streamer.py]   (AudioStreamer, the audio sink),
    - [src/voice_engine/voice_manager.py] (VoiceManager, engine dispatch).

    Python methods mutate [self], log, call the audio device and may raise.
    They are embedded in a small monad [Py S A] over the object state [S]
    that threads the state, collects a chronological trace of observable
    events (log records, device calls, engine invocations) and carries
    exceptions; [try_except] is Python's [try: ... except Exception:].
    Mutations done before a [raise] persist, as they do in Python.  A log
    record keeps the level and the fixed text of the message, without the
    values interpolated into it.  The [**kwargs] that the manager only
    passes through are left out. *)

From Stdlib Require Import ZArith List String Bool Lia Floats.
Import ListNotations.

Set Warnings "-inexact-float".
Set Implicit Arguments.

Open Scope string_scope.
Open Scope list_scope.
Open Scope Z_scope.

(* ===================================================================== *)
(** ** Values shared by the modules                                        *)
(* ===================================================================== *)

(** Python [bytes]. *)
Definition bytes := list Byte.byte.

(** [len(x)] as a Python integer. *)
Definition len {A : Type} (l : list A) : Z := Z.of_nat (List.length l).

(** [b * n] for a bytes object [b] of length one: [n <= 0] gives [b'']. *)
Definition bytes_repeat (b : Byte.byte) (n : Z) : bytes := repeat b (Z.to_nat n).

(** Index normalisation of a slice bound, as CPython's [PySlice_AdjustIndices]
    does for a step of one: negative bounds count from the end, and every
    bound is clamped to [0, len]. *)
Definition slice_bound (n i : Z) : Z :=
  if i <? 0 then Z.max 0 (n + i) else Z.min n i.

(** [l[i:j]]. *)
Definition slice {A : Type} (l : list A) (i j : Z) : list A :=
  let a := slice_bound (len l) i in
  let b := slice_bound (len l) j in
  firstn (Z.to_nat (b - a)) (skipn (Z.to_nat a) l).

(** [l[:j]]. *)
Definition slice_to {A : Type} (l : list A) (j : Z) : list A := slice l 0 j.

(** The elements of [range(start, ...)] with a given step, [n] of them. *)
Fixpoint range_from (n : nat) (start step : Z) : list Z :=
  match n with
  | O => []
  | S n' => start :: range_from n' (start + step) step
  end.

(** [range(start, stop, step)]: [None] stands for the [ValueError] that a zero
    step raises; the number of elements is CPython's [range] length. *)
Definition py_range (start stop step : Z) : option (list Z) :=
  if step =? 0 then None
  else if 0 <? step
       then Some (range_from (Z.to_nat ((stop - start + step - 1) / step)) start step)
       else Some (range_from (Z.to_nat ((start - stop - step - 1) / (- step))) start step).

(** The outcome of running Python code: a returned value or a raised
    exception. *)
Inductive Exn :=
| AttributeError
| QueueEmpty
| DeviceError
| EngineFailure.

Inductive Outcome (A : Type) :=
| Ret (a : A)
| Raise (e : Exn).
Arguments Ret {A} a.
Arguments Raise {A} e.

(** The numpy operations the code applies to sample arrays.  Their numeric
    content (floating-point scaling, saturation, dtype conversion) is left
    abstract: every result below holds whatever they compute.  The arrays
    are numeric arrays, on which these operations do not raise. *)
Class Numpy := {
  ndarray : Type;
  (** [a.ndim] *)
  np_ndim : ndarray -> Z;
  (** [a.reshape(-1, 1)] *)
  np_reshape_col : ndarray -> ndarray;
  (** [np.column_stack([a, a])] *)
  np_column_stack2 : ndarray -> ndarray;
  (** [np.clip(a, -1.0, 1.0)] *)
  np_clip : ndarray -> ndarray;
  (** [(a * 32767).astype(np.int16)] *)
  np_scale_int16 : ndarray -> ndarray;
  (** [a.tobytes()] *)
  np_tobytes : ndarray -> bytes
}.

(* ===================================================================== *)
(** ** src/config/settings.py                                              *)
(* ===================================================================== *)

Module Config.

Inductive VoiceEngine := XTTS_V2 | CHATTTS | REALTIME_TTS.

Definition VoiceEngine_eqb (a b : VoiceEngine) : bool :=
  match a, b with
  | XTTS_V2, XTTS_V2 | CHATTTS, CHATTTS | REALTIME_TTS, REALTIME_TTS => true
  | _, _ => false
  end.

(** The fields of [Settings] the modelled code reads. *)
Record Settings := {
  primary_voice_engine : VoiceEngine;
  fallback_voice_engine : VoiceEngine;
  sample_rate : Z;
  chunk_size : Z;
  channels : Z
}.

(** The defaults declared by [class Settings]. *)
Definition default_settings : Settings :=
  {| primary_voice_engine := XTTS_V2;
     fallback_voice_engine := CHATTTS;
     sample_rate := 22050;
     chunk_size := 1024;
     channels := 1 |}.

(** [class VoiceProfile]: plain attributes; [pitch] and [speed] are Python
    floats (IEEE binary64). *)
Record VoiceProfile := {
  name : string;
  gender : string;
  age_range : string;
  language : string;
  pitch : float;
  speed : float;
  emotion : string;
  voice_sample_path : option string
}.

(** [VoiceProfile.__init__]: eight assignments, nothing else.  The optional
    arguments are given as [option]; [None] takes the declared default. *)
Definition dflt {A : Type} (d : A) (o : option A) : A :=
  match o with Some a => a | None => d end.

Definition VoiceProfile__init__
    (name : string) (gender age_range language : option string)
    (pitch speed : option float) (emotion : option string)
    (voice_sample_path : option string) : Outcome VoiceProfile :=
  Ret {| name := name;
         gender := dflt "female" gender;
         age_range := dflt "young" age_range;
         language := dflt "auto" language;
         pitch := dflt 1.0%float pitch;
         speed := dflt 1.0%float speed;
         emotion := dflt "neutral" emotion;
         voice_sample_path := voice_sample_path |}.

(** The validity the data model asks of a profile, as a boolean test on
    floats (false on NaN). *)
Definition positive (x : float) : bool := PrimFloat.ltb 0%float x.

Definition profile_valid (p : VoiceProfile) : bool :=
  positive (pitch p) && positive (speed p).

End Config.

(* ===================================================================== *)
(** ** Observable events and the [Py] monad                                *)
(* ===================================================================== *)

Inductive LogLevel := DEBUG | INFO | WARNING | ERROR.

(** Handles of the audio device layer and of threads, by identity. *)
Definition Stream := nat.
Definition Thread := nat.

Inductive Method := MSynthesize | MSynthesizeStreaming.

Inductive Event :=
| Log (lvl : LogLevel) (msg : string)
| StreamStop (h : Stream)
| StreamClose (h : Stream)
| PyAudioTerminate
| ThreadStart (t : Thread)
| ThreadJoin (t : Thread)
| Invoke (engine : nat) (m : Method) (text language : string)
         (voice_profile : option Config.VoiceProfile).

Definition Trace := list Event.

Definition Py (S A : Type) : Type := S -> Outcome A * S * Trace.

Definition ret {S A : Type} (a : A) : Py S A := fun s => (Ret a, s, []).

Definition raise {S A : Type} (e : Exn) : Py S A := fun s => (Raise e, s, []).

Definition bind {S A B : Type} (m : Py S A) (k : A -> Py S B) : Py S B :=
  fun s =>
    match m s with
    | (Ret a, s1, t1) =>
        match k a s1 with (r, s2, t2) => (r, s2, t1 ++ t2) end
    | (Raise e, s1, t1) => (Raise e, s1, t1)
    end.

(** [try: body  except Exception as e: handler e]. *)
Definition try_except {S A : Type} (body : Py S A) (handler : Exn -> Py S A) : Py S A :=
  fun s =>
    match body s with
    | (Ret a, s1, t1) => (Ret a, s1, t1)
    | (Raise e, s1, t1) =>
        match handler e s1 with (r, s2, t2) => (r, s2, t1 ++ t2) end
    end.

Definition get {S : Type} : Py S S := fun s => (Ret s, s, []).

Definition modify {S : Type} (f : S -> S) : Py S unit := fun s => (Ret tt, f s, []).

Definition emit {S : Type} (e : Event) : Py S unit := fun s => (Ret tt, s, [e]).

Definition log {S : Type} (lvl : LogLevel) (msg : string) : Py S unit := emit (Log lvl msg).

(** The events of code that runs outside the object, in order. *)
Definition emit_all {S : Type} (t : Trace) : Py S unit := fun s => (Ret tt, s, t).

(** An external call whose outcome the environment decides. *)
Definition lift {S A : Type} (o : Outcome A) : Py S A := fun s => (o, s, []).

Declare Scope py_scope.
Delimit Scope py_scope with py.
Notation "x <- m ;; k" := (bind m (fun x => k))
  (at level 61, m at next level, right associativity) : py_scope.
Notation "m ;; k" := (bind m (fun _ => k))
  (at level 61, right associativity) : py_scope.
Open Scope py_scope.

(** Projections of a run. *)
Definition outcome_of {S A : Type} (r : Outcome A * S * Trace) : Outcome A := fst (fst r).
Definition state_of {S A : Type} (r : Outcome A * S * Trace) : S := snd (fst r).
Definition trace_of {S A : Type} (r : Outcome A * S * Trace) : Trace := snd r.

(** The engine methods a trace invoked, in order: (engine identity, method). *)
Fixpoint invocations (t : Trace) : list (nat * Method) :=
  match t with
  | [] => []
  | Invoke e m _ _ _ :: t' => (e, m) :: invocations t'
  | _ :: t' => invocations t'
  end.

(** How many times a trace logged [msg] at level [WARNING]. *)
Definition is_warning (msg : string) (e : Event) : bool :=
  match e with
  | Log WARNING m => String.eqb m msg
  | _ => false
  end.

Definition warnings (msg : string) (t : Trace) : nat :=
  List.length (filter (is_warning msg) t).

(* ===================================================================== *)
(** ** src/streaming/audio_streamer.py                                     *)
(* ===================================================================== *)

Module AudioStreamer.

(** What the audio layer (PyAudio, threads, the clock) answers to the calls
    the sink makes.  The sink never inspects more than these answers. *)
Record Device := {
  (** [import pyaudio] succeeded *)
  pyaudio_imported : bool;
  (** [pyaudio.PyAudio()] *)
  PyAudio_new : Outcome nat;
  (** [pyaudio_instance.open(...)] *)
  open_stream : Outcome Stream;
  (** [stream.stop_stream()] *)
  stop_stream : Stream -> Outcome unit;
  (** [stream.close()] *)
  close_stream : Stream -> Outcome unit;
  (** [pyaudio_instance.terminate()] *)
  terminate : Outcome unit;
  (** [threading.Thread(...)] *)
  new_thread : Thread;
  (** [thread.start()] *)
  start_thread : Thread -> Outcome unit;
  (** [thread.is_alive()] *)
  is_alive : Thread -> bool;
  (** [thread.join(timeout=2.0)] *)
  join_thread : Thread -> Outcome unit;
  (** [time.time()] *)
  time_time : float
}.

(** [pyaudio.paInt16] and [pyaudio.paContinue]. *)
Definition paInt16 : Z := 8.
Definition paContinue : Z := 0.

(** [queue.Queue(maxsize=100)]. *)
Definition maxsize : Z := 100.

Section Sink.
Context `{Numpy}.

(** What travels through the sink: numpy arrays or raw bytes. *)
Inductive PyObj :=
| Nd (a : ndarray)
| Bytes (b : bytes).

(** The attributes of an [AudioStreamer] instance; [audio_queue] is the
    content of the FIFO queue, oldest first. *)
Record self := {
  sample_rate : Z;
  channels : Z;
  chunk_size : Z;
  format : option Z;
  audio_queue : list PyObj;
  output_stream : option Stream;
  input_stream : option Stream;
  pyaudio_instance : option nat;
  is_streaming : bool;
  is_recording : bool;
  stream_thread : option Thread;
  callback_function : option nat;
  latency_ms : float;
  buffer_underruns : Z;
  last_audio_time : float
}.

Definition set_chunk_size (v : Z) (s : self) : self :=
  {| sample_rate := sample_rate s; channels := channels s; chunk_size := v;
     format := format s; audio_queue := audio_queue s;
     output_stream := output_stream s; input_stream := input_stream s;
     pyaudio_instance := pyaudio_instance s; is_streaming := is_streaming s;
     is_recording := is_recording s; stream_thread := stream_thread s;
     callback_function := callback_function s; latency_ms := latency_ms s;
     buffer_underruns := buffer_underruns s; last_audio_time := last_audio_time s |}.

Definition set_audio_queue (v : list PyObj) (s : self) : self :=
  {| sample_rate := sample_rate s; channels := channels s; chunk_size := chunk_size s;
     format := format s; audio_queue := v;
     output_stream := output_stream s; input_stream := input_stream s;
     pyaudio_instance := pyaudio_instance s; is_streaming := is_streaming s;
     is_recording := is_recording s; stream_thread := stream_thread s;
     callback_function := callback_function s; latency_ms := latency_ms s;
     buffer_underruns := buffer_underruns s; last_audio_time := last_audio_time s |}.

Definition set_output_stream (v : option Stream) (s : self) : self :=
  {| sample_rate := sample_rate s; channels := channels s; chunk_size := chunk_size s;
     format := format s; audio_queue := audio_queue s;
     output_stream := v; input_stream := input_stream s;
     pyaudio_instance := pyaudio_instance s; is_streaming := is_streaming s;
     is_recording := is_recording s; stream_thread := stream_thread s;
     callback_function := callback_function s; latency_ms := latency_ms s;
     buffer_underruns := buffer_underruns s; last_audio_time := last_audio_time s |}.

Definition set_input_stream (v : option Stream) (s : self) : self :=
  {| sample_rate := sample_rate s; channels := channels s; chunk_size := chunk_size s;
     format := format s; audio_queue := audio_queue s;
     output_stream := output_stream s; input_stream := v;
     pyaudio_instance := pyaudio_instance s; is_streaming := is_streaming s;
     is_recording := is_recording s; stream_thread := stream_thread s;
     callback_function := callback_function s; latency_ms := latency_ms s;
     buffer_underruns := buffer_underruns s; last_audio_time := last_audio_time s |}.

Definition set_pyaudio_instance (v : option nat) (s : self) : self :=
  {| sample_rate := sample_rate s; channels := channels s; chunk_size := chunk_size s;
     format := format s; audio_queue := audio_queue s;
     output_stream := output_stream s; input_stream := input_stream s;
     pyaudio_instance := v; is_streaming := is_streaming s;
     is_recording := is_recording s; stream_thread := stream_thread s;
     callback_function := callback_function s; latency_ms := latency_ms s;
     buffer_underruns := buffer_underruns s; last_audio_time := last_audio_time s |}.

Definition set_is_streaming (v : bool) (s : self) : self :=
  {| sample_rate := sample_rate s; channels := channels s; chunk_size := chunk_size s;
     format := format s; audio_queue := audio_queue s;
     output_stream := output_stream s; input_stream := input_stream s;
     pyaudio_instance := pyaudio_instance s; is_streaming := v;
     is_recording := is_recording s; stream_thread := stream_thread s;
     callback_function := callback_function s; latency_ms := latency_ms s;
     buffer_underruns := buffer_underruns s; last_audio_time := last_audio_time s |}.

Definition set_is_recording (v : bool) (s : self) : self :=
  {| sample_rate := sample_rate s; channels := channels s; chunk_size := chunk_size s;
     format := format s; audio_queue := audio_queue s;
     output_stream := output_stream s; input_stream := input_stream s;
     pyaudio_instance := pyaudio_instance s; is_streaming := is_streaming s;
     is_recording := v; stream_thread := stream_thread s;
     callback_function := callback_function s; latency_ms := latency_ms s;
     buffer_underruns := buffer_underruns s; last_audio_time := last_audio_time s |}.

Definition set_stream_thread (v : option Thread) (s : self) : self :=
  {| sample_rate := sample_rate s; channels := channels s; chunk_size := chunk_size s;
     format := format s; audio_queue := audio_queue s;
     output_stream := output_stream s; input_stream := input_stream s;
     pyaudio_instance := pyaudio_instance s; is_streaming := is_streaming s;
     is_recording := is_recording s; stream_thread := v;
     callback_function := callback_function s; latency_ms := latency_ms s;
     buffer_underruns := buffer_underruns s; last_audio_time := last_audio_time s |}.

Definition set_callback_function (v : option nat) (s : self) : self :=
  {| sample_rate := sample_rate s; channels := channels s; chunk_size := chunk_size s;
     format := format s; audio_queue := audio_queue s;
     output_stream := output_stream s; input_stream := input_stream s;
     pyaudio_instance := pyaudio_instance s; is_streaming := is_streaming s;
     is_recording := is_recording s; stream_thread := stream_thread s;
     callback_function := v; latency_ms := latency_ms s;
     buffer_underruns := buffer_underruns s; last_audio_time := last_audio_time s |}.

Definition set_latency_ms (v : float) (s : self) : self :=
  {| sample_rate := sample_rate s; channels := channels s; chunk_size := chunk_size s;
     format := format s; audio_queue := audio_queue s;
     output_stream := output_stream s; input_stream := input_stream s;
     pyaudio_instance := pyaudio_instance s; is_streaming := is_streaming s;
     is_recording := is_recording s; stream_thread := stream_thread s;
     callback_function := callback_function s; latency_ms := v;
     buffer_underruns := buffer_underruns s; last_audio_time := last_audio_time s |}.

Definition set_buffer_underruns (v : Z) (s : self) : self :=
  {| sample_rate := sample_rate s; channels := channels s; chunk_size := chunk_size s;
     format := format s; audio_queue := audio_queue s;
     output_stream := output_stream s; input_stream := input_stream s;
     pyaudio_instance := pyaudio_instance s; is_streaming := is_streaming s;
     is_recording := is_recording s; stream_thread := stream_thread s;
     callback_function := callback_function s; latency_ms := latency_ms s;
     buffer_underruns := v; last_audio_time := last_audio_time s |}.

Definition set_last_audio_time (v : float) (s : self) : self :=
  {| sample_rate := sample_rate s; channels := channels s; chunk_size := chunk_size s;
     format := format s; audio_queue := audio_queue s;
     output_stream := output_stream s; input_stream := input_stream s;
     pyaudio_instance := pyaudio_instance s; is_streaming := is_streaming s;
     is_recording := is_recording s; stream_thread := stream_thread s;
     callback_function := callback_function s; latency_ms := latency_ms s;
     buffer_underruns := buffer_underruns s; last_audio_time := v |}.

(** [queue.Queue] observers: [empty()], [full()], [qsize()]. *)
Definition qsize (q : list PyObj) : Z := len q.
Definition empty (q : list PyObj) : bool := qsize q =? 0.
Definition full (q : list PyObj) : bool := (0 <? maxsize) && (maxsize <=? qsize q).

(** The two states of the sink's state machine. *)
Inductive SinkState := Idle | Streaming.

Definition sink_state (s : self) : SinkState :=
  if is_streaming s then Streaming else Idle.

(** [AudioStreamer.__init__]. *)
Definition __init__ (dev : Device) (settings : Config.Settings) : self :=
  {| sample_rate := Config.sample_rate settings;
     channels := Config.channels settings;
     chunk_size := Config.chunk_size settings;
     format := if pyaudio_imported dev then Some paInt16 else None;
     audio_queue := [];
     output_stream := None;
     input_stream := None;
     pyaudio_instance := None;
     is_streaming := false;
     is_recording := false;
     stream_thread := None;
     callback_function := None;
     latency_ms := 0%float;
     buffer_underruns := 0;
     last_audio_time := 0%float |}.

(** [initialize]. *)
Definition initialize (dev : Device) : Py self bool :=
  try_except
    (if negb (pyaudio_imported dev) then
       log ERROR "PyAudio not available" ;;
       ret false
     else
       p <- lift (PyAudio_new dev) ;;
       modify (set_pyaudio_instance (Some p)) ;;
       log INFO "Audio streamer initialized" ;;
       ret true)
    (fun _ =>
       log ERROR "Failed to initialize audio streamer" ;;
       ret false).

(** [start_output_stream(callback)].  The worker thread it starts runs
    [_stream_worker]; its iterations are [_stream_worker_iteration]. *)
Definition start_output_stream (dev : Device) (callback : option nat) : Py self bool :=
  try_except
    (s <- get ;;
     ready <- match pyaudio_instance s with
              | None => initialize dev
              | Some _ => ret true
              end ;;
     if negb ready then ret false
     else
       modify (set_callback_function callback) ;;
       h <- lift (open_stream dev) ;;
       modify (set_output_stream (Some h)) ;;
       modify (set_is_streaming true) ;;
       match callback with
       | None =>
           modify (set_stream_thread (Some (new_thread dev))) ;;
           emit (ThreadStart (new_thread dev)) ;;
           lift (start_thread dev (new_thread dev))
       | Some _ => ret tt
       end ;;
       log INFO "Audio output stream started" ;;
       ret true)
    (fun _ =>
       log ERROR "Failed to start output stream" ;;
       ret false).

(** [start_input_stream]. *)
Definition start_input_stream (dev : Device) : Py self bool :=
  try_except
    (s <- get ;;
     ready <- match pyaudio_instance s with
              | None => initialize dev
              | Some _ => ret true
              end ;;
     if negb ready then ret false
     else
       h <- lift (open_stream dev) ;;
       modify (set_input_stream (Some h)) ;;
       modify (set_is_recording true) ;;
       log INFO "Audio input stream started" ;;
       ret true)
    (fun _ =>
       log ERROR "Failed to start input stream" ;;
       ret false).

(** [_output_callback(in_data, frame_count, time_info, status)]: the tick of
    the playback loop, as PyAudio makes it (the [pyaudio] module is imported,
    so [pyaudio.paContinue] is defined).  [in_data], [time_info] and [status]
    are not read. *)
Definition _output_callback (dev : Device) (frame_count : Z) : Py self (bytes * Z) :=
  try_except
    (s <- get ;;
     if negb (empty (audio_queue s)) then
       match audio_queue s with
       | [] => raise QueueEmpty
       | item :: rest =>
           modify (set_audio_queue rest) ;;
           let audio_data :=
             match item with
             | Nd a => np_tobytes (np_scale_int16 a)
             | Bytes b => b
             end in
           let required_bytes := frame_count * channels s * 2 in
           let audio_data :=
             if len audio_data <? required_bytes then
               audio_data ++ bytes_repeat Byte.x00 (required_bytes - len audio_data)
             else if required_bytes <? len audio_data then
               slice_to audio_data required_bytes
             else audio_data in
           modify (set_last_audio_time (time_time dev)) ;;
           ret (audio_data, paContinue)
       end
     else
       modify (fun s => set_buffer_underruns (buffer_underruns s + 1) s) ;;
       s <- get ;;
       let silence := bytes_repeat Byte.x00 (frame_count * channels s * 2) in
       ret (silence, paContinue))
    (fun _ =>
       log ERROR "Output callback error" ;;
       s <- get ;;
       let silence := bytes_repeat Byte.x00 (frame_count * channels s * 2) in
       ret (silence, paContinue)).

(** One iteration of the [while self.is_streaming] loop of [_stream_worker]
    (the periodic debug record is left out). *)
Definition _stream_worker_iteration (dev : Device) : Py self unit :=
  try_except
    (s <- get ;;
     let current_time := time_time dev in
     if PrimFloat.ltb 0%float (last_audio_time s) then
       modify (set_latency_ms (PrimFloat.mul (PrimFloat.sub current_time (last_audio_time s)) 1000%float))
     else ret tt)
    (fun _ => log ERROR "Stream worker error").

(** [queue_audio(audio_data)]. *)
Definition queue_audio (audio_data : PyObj) : Py self bool :=
  try_except
    (s <- get ;;
     if negb (is_streaming s) then ret false
     else
       match audio_data with
       | Nd a =>
           let a :=
             if np_ndim a =? 1 then
               (if channels s =? 1 then np_reshape_col a else np_column_stack2 a)
             else a in
           let a := np_clip a in
           let audio_int16 := np_scale_int16 a in
           if negb (full (audio_queue s)) then
             modify (fun s => set_audio_queue (audio_queue s ++ [Nd audio_int16]) s) ;;
             ret true
           else
             log WARNING "Audio queue full, dropping frame" ;;
             ret false
       | Bytes _ =>
           log ERROR "Invalid audio data type" ;;
           ret false
       end)
    (fun _ =>
       log ERROR "Failed to queue audio" ;;
       ret false).

(** [adjust_latency(target_latency_ms)]; [//] is floor division. *)
Definition adjust_latency (target_latency_ms : float) : Py self unit :=
  try_except
    (s <- get ;;
     let current_latency := latency_ms s in
     if PrimFloat.ltb (PrimFloat.mul target_latency_ms 1.5%float) current_latency then
       let new_chunk_size := Z.max 256 (chunk_size s / 2) in
       log INFO "Reducing chunk size" ;;
       modify (set_chunk_size new_chunk_size)
     else if PrimFloat.ltb current_latency (PrimFloat.mul target_latency_ms 0.5%float) then
       let new_chunk_size := Z.min 4096 (chunk_size s * 2) in
       log INFO "Increasing chunk size" ;;
       modify (set_chunk_size new_chunk_size)
     else ret tt)
    (fun _ => log ERROR "Failed to adjust latency").

(** The default [target_latency_ms]. *)
Definition default_target_latency_ms : float := 200%float.

(** [stream.stop_stream(); stream.close()] on a handle. *)
Definition stop_and_close (dev : Device) (h : Stream) : Py self unit :=
  emit (StreamStop h) ;;
  lift (stop_stream dev h) ;;
  emit (StreamClose h) ;;
  lift (close_stream dev h).

(** [stop_streaming]. *)
Definition stop_streaming (dev : Device) : Py self unit :=
  try_except
    (modify (set_is_streaming false) ;;
     modify (set_is_recording false) ;;
     s <- get ;;
     match output_stream s with
     | Some h =>
         stop_and_close dev h ;;
         modify (set_output_stream None)
     | None => ret tt
     end ;;
     s <- get ;;
     match input_stream s with
     | Some h =>
         stop_and_close dev h ;;
         modify (set_input_stream None)
     | None => ret tt
     end ;;
     s <- get ;;
     match stream_thread s with
     | Some t =>
         if is_alive dev t then emit (ThreadJoin t) ;; lift (join_thread dev t)
         else ret tt
     | None => ret tt
     end ;;
     log INFO "Audio streaming stopped")
    (fun _ => log ERROR "Error stopping streaming").

(** The loop [while not self.audio_queue.empty(): self.audio_queue.get_nowait()]
    of [cleanup], one [get_nowait] per element. *)
Fixpoint drain (q : list PyObj) : list PyObj :=
  match q with
  | [] => []
  | _ :: rest => drain rest
  end.

(** [cleanup]. *)
Definition cleanup (dev : Device) : Py self unit :=
  stop_streaming dev ;;
  s <- get ;;
  match pyaudio_instance s with
  | Some _ =>
      try_except
        (emit PyAudioTerminate ;; lift (terminate dev))
        (fun _ => log ERROR "Error terminating PyAudio") ;;
      modify (set_pyaudio_instance None)
  | None => ret tt
  end ;;
  modify (fun s => set_audio_queue (drain (audio_queue s)) s) ;;
  log INFO "Audio streamer cleaned up".

(** [pyaudio.paContinue]: an [AttributeError] when [import pyaudio] failed
    and left [pyaudio = None]. *)
Definition pyaudio_paContinue (dev : Device) : Py self Z :=
  if pyaudio_imported dev then ret paContinue else raise AttributeError.

(** [_input_callback(in_data, frame_count, time_info, status)].
    [callback in_data] is what the call [self.callback_function(in_data)]
    does: user code, which may write to the sink, log and raise. *)
Definition _input_callback (dev : Device) (callback : bytes -> Py self unit)
    (in_data : bytes) : Py self (bytes * Z) :=
  try_except
    (s <- get ;;
     match callback_function s with
     | Some _ => callback in_data
     | None => ret tt
     end ;;
     flag <- pyaudio_paContinue dev ;;
     ret (in_data, flag))
    (fun _ =>
       log ERROR "Input callback error" ;;
       flag <- pyaudio_paContinue dev ;;
       ret (in_data, flag)).

(** What the user callback does when [_input_callback] runs on [s]: nothing
    when no callback is set. *)
Definition callback_run (callback : bytes -> Py self unit) (in_data : bytes) (s : self)
    : Outcome unit * self * Trace :=
  match callback_function s with
  | Some _ => callback in_data s
  | None => (Ret tt, s, [])
  end.

(** The record [_input_callback] logs when it catches an exception. *)
Definition input_callback_error : Event := Log ERROR "Input callback error".

(** A generator of audio chunks, as the loop that consumes it sees it.
    Advancing it runs its body up to the next [yield]: [ran] is what that
    piece of the body does that can be observed from outside (the engine
    calls and log records of a synthesis, say); the generator then yields a
    chunk (possibly [None]) and can be advanced again, or ends, or raises.
    The body holds no reference to the sink. *)
Inductive Generator :=
| GenDone (ran : Trace)
| GenYield (ran : Trace) (audio_chunk : option PyObj) (rest : Generator)
| GenRaise (ran : Trace) (e : Exn).

(** The generator that yields the given chunks and ends, and does nothing
    else. *)
Fixpoint generator_of (chunks : list PyObj) : Generator :=
  match chunks with
  | [] => GenDone []
  | c :: rest => GenYield [] (Some c) (generator_of rest)
  end.

(** What advancing a generator for the first time does. *)
Definition first_step (g : Generator) : Trace :=
  match g with
  | GenDone ran => ran
  | GenYield ran _ _ => ran
  | GenRaise ran _ => ran
  end.

(** The [for audio_chunk in audio_generator] loop of
    [stream_audio_generator]: the generator is advanced first, the flag is
    tested after; [time.sleep] has no effect on the sink. *)
Fixpoint stream_loop (audio_generator : Generator) : Py self unit :=
  match audio_generator with
  | GenDone ran => emit_all ran
  | GenRaise ran e => emit_all ran ;; raise e
  | GenYield ran audio_chunk rest =>
      emit_all ran ;;
      s <- get ;;
      if negb (is_streaming s) then ret tt
      else
        match audio_chunk with
        | Some c => queue_audio c ;; ret tt
        | None => ret tt
        end ;;
        stream_loop rest
  end.

(** [stream_audio_generator(audio_generator)]. *)
Definition stream_audio_generator (audio_generator : Generator) : Py self unit :=
  try_except
    (stream_loop audio_generator)
    (fun _ => log ERROR "Audio generator streaming failed").

(** The calls a user or the audio layer makes on a sink.  The input
    callback is given a user callback that answers [callback_result] and
    leaves the sink alone. *)
Inductive Call :=
| CallStartOutput (callback : option nat)
| CallStartInput
| CallQueueAudio (audio_data : PyObj)
| CallStreamGenerator (audio_generator : Generator)
| CallOutputCallback (frame_count : Z)
| CallInputCallback (callback_result : Outcome unit) (in_data : bytes)
| CallWorkerIteration
| CallAdjustLatency (target_latency_ms : float)
| CallStopStreaming
| CallCleanup.

(** The sink after one call, the audio layer answering as [dev] says. *)
Definition after_call (dev : Device) (c : Call) (s : self) : self :=
  match c with
  | CallStartOutput callback => state_of (start_output_stream dev callback s)
  | CallStartInput => state_of (start_input_stream dev s)
  | CallQueueAudio audio_data => state_of (queue_audio audio_data s)
  | CallStreamGenerator g => state_of (stream_audio_generator g s)
  | CallOutputCallback frame_count => state_of (_output_callback dev frame_count s)
  | CallInputCallback r in_data => state_of (_input_callback dev (fun _ => lift r) in_data s)
  | CallWorkerIteration => state_of (_stream_worker_iteration dev s)
  | CallAdjustLatency target => state_of (adjust_latency target s)
  | CallStopStreaming => state_of (stop_streaming dev s)
  | CallCleanup => state_of (cleanup dev s)
  end.

(** The sink after a sequence of calls, each with its own answers of the
    audio layer. *)
Fixpoint after_calls (calls : list (Device * Call)) (s : self) : self :=
  match calls with
  | [] => s
  | (dev, c) :: rest => after_calls rest (after_call dev c s)
  end.

(** What [_output_callback] makes of a queued item for a buffer of
    [required_bytes] bytes: its bytes, zero-padded or cut to that size. *)
Definition rendered (item : PyObj) (required_bytes : Z) : bytes :=
  let audio_data :=
    match item with
    | Nd a => np_tobytes (np_scale_int16 a)
    | Bytes b => b
    end in
  firstn (Z.to_nat required_bytes)
         (audio_data ++ bytes_repeat Byte.x00 (required_bytes - len audio_data)).

(** What [queue_audio] puts in the queue for an array. *)
Definition queued_form (s : self) (a : ndarray) : PyObj :=
  Nd (np_scale_int16
        (np_clip (if np_ndim a =? 1
                  then (if channels s =? 1 then np_reshape_col a else np_column_stack2 a)
                  else a))).

(** The queue and the underrun counter of [s'] are those of [s]. *)
Definition same_queue_and_counters (s s' : self) : Prop :=
  audio_queue s' = audio_queue s /\ buffer_underruns s' = buffer_underruns s.

(** A sink that says it streams has an output handle, and one that says it
    records has an input handle. *)
Definition flags_have_handles (s : self) : Prop :=
  (is_streaming s = true -> output_stream s <> None)
  /\ (is_recording s = true -> input_stream s <> None).

(** The two records [queue_audio] logs when it refuses a chunk. *)
Definition dropped : Event := Log WARNING "Audio queue full, dropping frame".
Definition invalid_type : Event := Log ERROR "Invalid audio data type".

(** Closed forms used to reason about [stop_streaming] (related to the
    code by [stop_streaming_state] below).  [closes dev o] says that stopping
    and closing the handle [o], if there is one, raises nothing. *)
Definition closes (dev : Device) (o : option Stream) : bool :=
  match o with
  | None => true
  | Some h =>
      match stop_stream dev h, close_stream dev h with
      | Ret _, Ret _ => true
      | _, _ => false
      end
  end.

Definition stopped (dev : Device) (s : self) : self :=
  let s1 := set_is_recording false (set_is_streaming false s) in
  if closes dev (output_stream s) then
    let s2 := set_output_stream None s1 in
    if closes dev (input_stream s) then set_input_stream None s2 else s2
  else s1.

End Sink.
End AudioStreamer.

(* ===================================================================== *)
(** ** src/voice_engine/voice_manager.py                                   *)
(* ===================================================================== *)

(** Python dictionaries keep insertion order; the code relies on it
    ([next(iter(d.values()))]), so a dictionary is an association list in
    insertion order with at most one entry per key. *)
Section Dict.
Variables (K V : Type) (eqb : K -> K -> bool).

(** [d[k]] / [d.get(k)] *)
Fixpoint dict_get (k : K) (d : list (K * V)) : option V :=
  match d with
  | [] => None
  | (k', v) :: d' => if eqb k k' then Some v else dict_get k d'
  end.

(** [k in d] *)
Definition dict_mem (k : K) (d : list (K * V)) : bool :=
  match dict_get k d with Some _ => true | None => false end.

(** [d[k] = v]: an existing key keeps its position. *)
Fixpoint dict_set (k : K) (v : V) (d : list (K * V)) : list (K * V) :=
  match d with
  | [] => [(k, v)]
  | (k', v') :: d' => if eqb k k' then (k, v) :: d' else (k', v') :: dict_set k v d'
  end.

(** [next(iter(d.values()))] when [d] is not empty. *)
Definition dict_first (d : list (K * V)) : option V :=
  match d with
  | [] => None
  | (_, v) :: _ => Some v
  end.

End Dict.

(** A synthesis backend as the manager sees it: an object identity and the
    methods it has ([hasattr]).  A method answers a call by returning a value
    (possibly Python's [None]) or by raising. *)
Module Engine.
Record t `{Numpy} := {
  id : nat;
  (** [synthesize(text, language, speaker_wav, voice_profile)] *)
  synthesize :
    option (string -> string -> option string -> option Config.VoiceProfile ->
            Outcome (option ndarray));
  (** [synthesize_streaming(text, language, voice_profile)] *)
  synthesize_streaming :
    option (string -> string -> option Config.VoiceProfile ->
            Outcome (option (list bytes)))
}.
End Engine.

Module VoiceManager.
Import Config.

Inductive SynthesisMode := BATCH | STREAMING | REALTIME.

(** What the model loaders answer during [initialize]. *)
Record Backends `{Numpy} := {
  xtts_engine : Engine.t;
  xtts_load_model : bool;
  chattts_engine : Engine.t;
  chattts_load_model : bool;
  realtime_engine : Engine.t;
  realtime_initialize : bool
}.

Section Manager.
Context `{Numpy}.

(** What [synthesize] returns besides [None]: a whole buffer or a chunk
    sequence (the chunks a generator yields, in order). *)
Inductive Audio :=
| Array (a : ndarray)
| Chunks (g : list bytes).

Record self := {
  engines : list (VoiceEngine * Engine.t);
  current_engine : option Engine.t;
  fallback_engine : option Engine.t;
  voice_profiles : list (string * VoiceProfile);
  current_profile : option VoiceProfile;
  is_initialized : bool
}.

Definition set_engines (v : list (VoiceEngine * Engine.t)) (m : self) : self :=
  {| engines := v; current_engine := current_engine m;
     fallback_engine := fallback_engine m; voice_profiles := voice_profiles m;
     current_profile := current_profile m; is_initialized := is_initialized m |}.

Definition set_current_engine (v : option Engine.t) (m : self) : self :=
  {| engines := engines m; current_engine := v;
     fallback_engine := fallback_engine m; voice_profiles := voice_profiles m;
     current_profile := current_profile m; is_initialized := is_initialized m |}.

Definition set_fallback_engine (v : option Engine.t) (m : self) : self :=
  {| engines := engines m; current_engine := current_engine m;
     fallback_engine := v; voice_profiles := voice_profiles m;
     current_profile := current_profile m; is_initialized := is_initialized m |}.

Definition set_voice_profiles (v : list (string * VoiceProfile)) (m : self) : self :=
  {| engines := engines m; current_engine := current_engine m;
     fallback_engine := fallback_engine m; voice_profiles := v;
     current_profile := current_profile m; is_initialized := is_initialized m |}.

Definition set_current_profile_attr (v : option VoiceProfile) (m : self) : self :=
  {| engines := engines m; current_engine := current_engine m;
     fallback_engine := fallback_engine m; voice_profiles := voice_profiles m;
     current_profile := v; is_initialized := is_initialized m |}.

Definition set_is_initialized (v : bool) (m : self) : self :=
  {| engines := engines m; current_engine := current_engine m;
     fallback_engine := fallback_engine m; voice_profiles := voice_profiles m;
     current_profile := current_profile m; is_initialized := v |}.

(** [VoiceManager.__init__]. *)
Definition __init__ : self :=
  {| engines := []; current_engine := None; fallback_engine := None;
     voice_profiles := []; current_profile := None; is_initialized := false |}.

(** Object comparison [a != b] of two engine attributes (either may be
    [None]): engines define no [__eq__], so it is identity. *)
Definition engine_ne (a b : option Engine.t) : bool :=
  match a, b with
  | Some x, Some y => negb (Nat.eqb (Engine.id x) (Engine.id y))
  | None, None => false
  | _, _ => true
  end.

(** Truth value of an optional string: [None] and [""] are false. *)
Definition str_truthy (o : option string) : bool :=
  match o with
  | Some s => negb (String.eqb s "")
  | None => false
  end.

Definition is_some {A : Type} (o : option A) : bool :=
  match o with Some _ => true | None => false end.

(** The three default profiles of [_load_default_profiles]. *)
Definition cute_girl : VoiceProfile :=
  {| name := "cute_girl"; gender := "female"; age_range := "young";
     language := "auto"; pitch := 1.2%float; speed := 1.0%float;
     emotion := "cheerful"; voice_sample_path := None |}.

Definition asmr_girl : VoiceProfile :=
  {| name := "asmr_girl"; gender := "female"; age_range := "young";
     language := "auto"; pitch := 0.9%float; speed := 0.8%float;
     emotion := "calm"; voice_sample_path := None |}.

Definition energetic_girl : VoiceProfile :=
  {| name := "energetic_girl"; gender := "female"; age_range := "young";
     language := "auto"; pitch := 1.3%float; speed := 1.2%float;
     emotion := "excited"; voice_sample_path := None |}.

(** [_load_default_profiles]. *)
Definition _load_default_profiles : Py self unit :=
  modify (fun m => set_voice_profiles (dict_set String.eqb "cute_girl" cute_girl (voice_profiles m)) m) ;;
  modify (fun m => set_voice_profiles (dict_set String.eqb "asmr_girl" asmr_girl (voice_profiles m)) m) ;;
  modify (fun m => set_voice_profiles (dict_set String.eqb "energetic_girl" energetic_girl (voice_profiles m)) m) ;;
  modify (fun m => set_current_profile_attr (dict_get String.eqb "cute_girl" (voice_profiles m)) m) ;;
  log INFO "Loaded default voice profiles".

(** [initialize], against the global [settings]. *)
Definition initialize (settings : Settings) (b : Backends) : Py self bool :=
  try_except
    (log INFO "Initializing Voice Manager" ;;
     (if VoiceEngine_eqb (primary_voice_engine settings) XTTS_V2 then
        if xtts_load_model b then
          modify (fun m => set_engines (dict_set VoiceEngine_eqb XTTS_V2 (xtts_engine b) (engines m)) m) ;;
          modify (set_current_engine (Some (xtts_engine b))) ;;
          log INFO "XTTS-v2 engine initialized as primary"
        else log WARNING "Failed to initialize XTTS-v2 engine"
      else ret tt) ;;
     (if VoiceEngine_eqb (primary_voice_engine settings) CHATTTS
         || VoiceEngine_eqb (fallback_voice_engine settings) CHATTTS then
        if chattts_load_model b then
          modify (fun m => set_engines (dict_set VoiceEngine_eqb CHATTTS (chattts_engine b) (engines m)) m) ;;
          (if VoiceEngine_eqb (primary_voice_engine settings) CHATTTS then
             modify (set_current_engine (Some (chattts_engine b)))
           else ret tt) ;;
          log INFO "ChatTTS engine initialized"
        else log WARNING "Failed to initialize ChatTTS engine"
      else ret tt) ;;
     (if realtime_initialize b then
        modify (fun m => set_engines (dict_set VoiceEngine_eqb REALTIME_TTS (realtime_engine b) (engines m)) m) ;;
        m <- get ;;
        (if negb (is_some (current_engine m)) then
           modify (set_current_engine (Some (realtime_engine b)))
         else ret tt) ;;
        log INFO "RealtimeTTS engine initialized"
      else log WARNING "Failed to initialize RealtimeTTS engine") ;;
     m <- get ;;
     (if dict_mem VoiceEngine_eqb (fallback_voice_engine settings) (engines m) then
        modify (set_fallback_engine (dict_get VoiceEngine_eqb (fallback_voice_engine settings) (engines m)))
      else ret tt) ;;
     _load_default_profiles ;;
     modify (fun m => set_is_initialized (0 <? len (engines m)) m) ;;
     m <- get ;;
     (if is_initialized m then log INFO "Voice Manager initialized"
      else log ERROR "No voice engines available") ;;
     ret (is_initialized m))
    (fun _ =>
       log ERROR "Voice Manager initialization failed" ;;
       ret false).

(** [_get_voice_profile(profile_name)]. *)
Definition _get_voice_profile (m : self) (profile_name : option string) : option VoiceProfile :=
  if str_truthy profile_name
     && dict_mem String.eqb (dflt "" profile_name) (voice_profiles m) then
    dict_get String.eqb (dflt "" profile_name) (voice_profiles m)
  else if is_some (current_profile m) then
    current_profile m
  else if negb (len (voice_profiles m) =? 0) then
    dict_first (voice_profiles m)
  else None.

(** [_select_engine(mode)]. *)
Definition _select_engine (m : self) (mode : SynthesisMode) : option Engine.t :=
  if match mode with REALTIME => true | _ => false end
     && dict_mem VoiceEngine_eqb REALTIME_TTS (engines m) then
    dict_get VoiceEngine_eqb REALTIME_TTS (engines m)
  else if match mode with BATCH | STREAMING => true | _ => false end
          && is_some (current_engine m) then
    current_engine m
  else if negb (len (engines m) =? 0) then
    dict_first (engines m)
  else None.

(** The default [chunk_size] of [_convert_to_streaming]. *)
Definition default_chunk_size : Z := 1024.

(** [_convert_to_streaming(audio, chunk_size)]: the chunks the generator
    yields when it is consumed, in order, and what it logs.  A zero
    [chunk_size] makes [range] raise; the generator catches it, logs and
    ends without a chunk. *)
Definition _convert_to_streaming (audio : ndarray) (chunk_size : Z) : list bytes * Trace :=
  let audio_int16 := np_scale_int16 audio in
  let audio_bytes := np_tobytes audio_int16 in
  match py_range 0 (len audio_bytes) (chunk_size * 2) with
  | Some indices =>
      (map (fun i => slice audio_bytes i (i + chunk_size * 2)) indices, [])
  | None => ([], [Log ERROR "Audio conversion failed"])
  end.

(** [speaker_wav = voice_profile.voice_sample_path if voice_profile else None] *)
Definition speaker_wav_of (voice_profile : option VoiceProfile) : option string :=
  match voice_profile with
  | Some p => voice_sample_path p
  | None => None
  end.

(** [_synthesize_batch(engine, text, language, voice_profile)]. *)
Definition _synthesize_batch (engine : Engine.t) (text language : string)
    (voice_profile : option VoiceProfile) : Py self (option Audio) :=
  try_except
    (match Engine.synthesize engine with
     | Some f =>
         let speaker_wav := speaker_wav_of voice_profile in
         emit (Invoke (Engine.id engine) MSynthesize text language voice_profile) ;;
         r <- lift (f text language speaker_wav voice_profile) ;;
         ret (option_map Array r)
     | None =>
         log ERROR "Engine doesn't support batch synthesis" ;;
         ret None
     end)
    (fun _ =>
       log ERROR "Batch synthesis failed" ;;
       ret None).

(** [_synthesize_streaming(engine, text, language, voice_profile)]. *)
Definition _synthesize_streaming (engine : Engine.t) (text language : string)
    (voice_profile : option VoiceProfile) : Py self (option Audio) :=
  let unsupported : Py self (option Audio) :=
    log ERROR "Engine doesn't support streaming synthesis" ;;
    ret None in
  try_except
    (match Engine.synthesize_streaming engine with
     | Some f =>
         emit (Invoke (Engine.id engine) MSynthesizeStreaming text language voice_profile) ;;
         r <- lift (f text language voice_profile) ;;
         ret (option_map Chunks r)
     | None =>
         match Engine.synthesize engine with
         | Some f =>
             emit (Invoke (Engine.id engine) MSynthesize text language voice_profile) ;;
             audio <- lift (f text language (speaker_wav_of voice_profile) voice_profile) ;;
             match audio with
             | Some a => ret (Some (Chunks (fst (_convert_to_streaming a default_chunk_size))))
             | None => unsupported
             end
         | None => unsupported
         end
     end)
    (fun _ =>
       log ERROR "Streaming synthesis failed" ;;
       ret None).

(** [_synthesize_realtime(engine, text, language, voice_profile)]. *)
Definition _synthesize_realtime (engine : Engine.t) (text language : string)
    (voice_profile : option VoiceProfile) : Py self (option Audio) :=
  try_except
    (m <- get ;;
     if dict_mem VoiceEngine_eqb REALTIME_TTS (engines m) then
       match dict_get VoiceEngine_eqb REALTIME_TTS (engines m) with
       | Some realtime_engine =>
           match Engine.synthesize_streaming realtime_engine with
           | Some f =>
               emit (Invoke (Engine.id realtime_engine) MSynthesizeStreaming text language voice_profile) ;;
               r <- lift (f text language voice_profile) ;;
               ret (option_map Chunks r)
           | None => raise AttributeError
           end
       | None => raise AttributeError
       end
     else _synthesize_streaming engine text language voice_profile)
    (fun _ =>
       log ERROR "Real-time synthesis failed" ;;
       ret None).

(** The dispatch on [mode] shared by [synthesize] and [_try_fallback]. *)
Definition synthesize_by_mode (mode : SynthesisMode) (engine : Engine.t)
    (text language : string) (voice_profile : option VoiceProfile) : Py self (option Audio) :=
  match mode with
  | BATCH => _synthesize_batch engine text language voice_profile
  | STREAMING => _synthesize_streaming engine text language voice_profile
  | REALTIME => _synthesize_realtime engine text language voice_profile
  end.

(** [_try_fallback(text, voice_profile_name, language, mode)]. *)
Definition _try_fallback (text : string) (voice_profile_name : option string)
    (language : string) (mode : SynthesisMode) : Py self (option Audio) :=
  try_except
    (m <- get ;;
     match fallback_engine m with
     | Some fb =>
         if engine_ne (fallback_engine m) (current_engine m) then
           log INFO "Trying fallback engine" ;;
           let voice_profile := _get_voice_profile m voice_profile_name in
           synthesize_by_mode mode fb text language voice_profile
         else ret None
     | None => ret None
     end)
    (fun _ =>
       log ERROR "Fallback synthesis failed" ;;
       ret None).

(** The [try] block of [synthesize]. *)
Definition synthesize_body (text : string) (voice_profile_name : option string)
    (language : string) (mode : SynthesisMode) : Py self (option Audio) :=
  m <- get ;;
  if negb (is_initialized m) then
    log ERROR "Voice Manager not initialized" ;;
    ret None
  else
    let voice_profile := _get_voice_profile m voice_profile_name in
    match _select_engine m mode with
    | None =>
        log ERROR "No suitable engine available" ;;
        ret None
    | Some engine => synthesize_by_mode mode engine text language voice_profile
    end.

(** [synthesize(text, voice_profile_name, language, mode)]. *)
Definition synthesize (text : string) (voice_profile_name : option string)
    (language : string) (mode : SynthesisMode) : Py self (option Audio) :=
  try_except
    (synthesize_body text voice_profile_name language mode)
    (fun _ =>
       log ERROR "Synthesis failed" ;;
       _try_fallback text voice_profile_name language mode).

(** [add_voice_profile(profile)]. *)
Definition add_voice_profile (profile : VoiceProfile) : Py self bool :=
  try_except
    (modify (fun m => set_voice_profiles (dict_set String.eqb (name profile) profile (voice_profiles m)) m) ;;
     log INFO "Added voice profile" ;;
     ret true)
    (fun _ =>
       log ERROR "Failed to add voice profile" ;;
       ret false).

(** [set_current_profile(profile_name)]. *)
Definition set_current_profile (profile_name : string) : Py self bool :=
  m <- get ;;
  if dict_mem String.eqb profile_name (voice_profiles m) then
    modify (set_current_profile_attr (dict_get String.eqb profile_name (voice_profiles m))) ;;
    log INFO "Switched to voice profile" ;;
    ret true
  else
    log ERROR "Voice profile not found" ;;
    ret false.

(** [switch_engine(engine_name)]. *)
Definition switch_engine (engine_name : VoiceEngine) : Py self bool :=
  m <- get ;;
  if dict_mem VoiceEngine_eqb engine_name (engines m) then
    modify (set_current_engine (dict_get VoiceEngine_eqb engine_name (engines m))) ;;
    log INFO "Switched to engine" ;;
    ret true
  else
    log ERROR "Engine not found" ;;
    ret false.

(** [get_available_profiles] and [get_available_engines]. *)
Definition get_available_profiles (m : self) : list string :=
  map fst (voice_profiles m).

Definition get_available_engines (m : self) : list VoiceEngine :=
  map fst (engines m).

(** The loop [for engine in self.engines.values()] of [cleanup];
    [engine_cleanup e] is [None] when [e] has no [cleanup] attribute and
    otherwise what the call [e.cleanup()] answers. *)
Fixpoint cleanup_engines (engine_cleanup : Engine.t -> option (Outcome unit))
    (l : list Engine.t) : Py self unit :=
  match l with
  | [] => ret tt
  | engine :: rest =>
      match engine_cleanup engine with
      | Some answer => lift answer
      | None => ret tt
      end ;;
      cleanup_engines engine_cleanup rest
  end.

(** [cleanup]: no exception is caught here. *)
Definition cleanup (engine_cleanup : Engine.t -> option (Outcome unit)) : Py self unit :=
  m <- get ;;
  cleanup_engines engine_cleanup (map snd (engines m)) ;;
  modify (set_engines []) ;;
  modify (set_current_engine None) ;;
  modify (set_fallback_engine None) ;;
  modify (set_is_initialized false) ;;
  log INFO "Voice Manager cleaned up".

(** The keys of a dictionary are pairwise distinct. *)
Definition distinct_keys {K V : Type} (d : list (K * V)) : Prop := NoDup (map fst d).

(** The capabilities of an engine are the methods it has. *)
Definition supports_batch (e : Engine.t) : bool := is_some (Engine.synthesize e).
Definition supports_incremental (e : Engine.t) : bool :=
  is_some (Engine.synthesize_streaming e).

(** The capability a mode asks of an engine: batch synthesis for batch
    mode, incremental synthesis for the streaming and realtime modes. *)
Definition capable (mode : SynthesisMode) (e : Engine.t) : bool :=
  match mode with
  | BATCH => supports_batch e
  | STREAMING | REALTIME => supports_incremental e
  end.

(** The single method streaming synthesis calls on an engine, if any: the
    incremental one when the engine has it, else the batch one. *)
Definition streaming_call (e : Engine.t) : list (nat * Method) :=
  if supports_incremental e then [(Engine.id e, MSynthesizeStreaming)]
  else if supports_batch e then [(Engine.id e, MSynthesize)]
  else [].

(** The engine method a request in [mode] ends up calling once [e] was
    selected (related to the code by [invocations_by_mode] below). *)
Definition dispatch (m : self) (mode : SynthesisMode) (e : Engine.t) : list (nat * Method) :=
  match mode with
  | BATCH => if supports_batch e then [(Engine.id e, MSynthesize)] else []
  | STREAMING => streaming_call e
  | REALTIME =>
      match dict_get VoiceEngine_eqb REALTIME_TTS (engines m) with
      | Some rt =>
          if supports_incremental rt then [(Engine.id rt, MSynthesizeStreaming)] else []
      | None => streaming_call e
      end
  end.

(** The profile used when the requested name is not a registered one: the
    current profile if there is one, else the first registered profile, else
    none. *)
Definition substitute_profile (m : self) : option VoiceProfile :=
  match current_profile m with
  | Some p => Some p
  | None => dict_first (voice_profiles m)
  end.

(** Every engine invocation recorded in a trace was given [vp]. *)
Definition invoked_with (vp : option VoiceProfile) (t : Trace) : Prop :=
  Forall (fun ev => match ev with
                    | Invoke _ _ _ _ vp' => vp' = vp
                    | _ => True
                    end) t.

(** The engine invocations recorded in a trace, with their arguments. *)
Definition is_invoke (ev : Event) : bool :=
  match ev with
  | Invoke _ _ _ _ _ => true
  | _ => false
  end.

Definition invoke_events (t : Trace) : list Event := filter is_invoke t.

(** The record of calling method [snd c] of engine [fst c] with the given
    text, language and profile. *)
Definition invoke_of (text language : string) (vp : option VoiceProfile)
    (c : nat * Method) : Event :=
  Invoke (fst c) (snd c) text language vp.

(** What batch synthesis returns for the answer of the engine: the buffer,
    or [None] when the engine returned [None] or raised. *)
Definition batch_result (answer : Outcome (option ndarray)) : option Audio :=
  match answer with
  | Ret r => option_map Array r
  | Raise _ => None
  end.

End Manager.
End VoiceManager.

(* ===================================================================== *)
(** ** src/voice_engine/xtts_engine.py, chattts_engine.py: streaming       *)
(* ===================================================================== *)

(** Both engines stream by synthesizing the whole buffer and slicing it.
    [audio] is what [self.synthesize(...)] answered; an array is the list of
    its elements along the first axis.  The result is what the generator
    yields when consumed, in order, and what it logs. *)
Module Engines.
Section Chunking.
Variable Sample : Type.

(** The [for i in range(0, len(audio), chunk_size): yield audio[i:i + chunk_size]]
    loop; [None] when [range] raises. *)
Definition sliced (audio : list Sample) (chunk_size : Z) : option (list (list Sample)) :=
  match py_range 0 (len audio) chunk_size with
  | Some indices => Some (map (fun i => slice audio i (i + chunk_size)) indices)
  | None => None
  end.

(** [XTTSEngine.synthesize_streaming]. *)
Definition xtts_synthesize_streaming (audio : Outcome (option (list Sample)))
    (chunk_size : Z) : list (option (list Sample)) * Trace :=
  match audio with
  | Ret (Some a) =>
      match sliced a chunk_size with
      | Some chunks => (map Some chunks, [])
      | None => ([None], [Log ERROR "Streaming synthesis failed"])
      end
  | Ret None => ([], [])
  | Raise _ => ([None], [Log ERROR "Streaming synthesis failed"])
  end.

(** [ChatTTSEngine.synthesize_streaming]. *)
Definition chattts_synthesize_streaming (audio : Outcome (option (list Sample)))
    (chunk_size : Z) : list (option (list Sample)) * Trace :=
  match audio with
  | Ret (Some a) =>
      match sliced a chunk_size with
      | Some chunks => (map Some chunks, [])
      | None => ([None], [Log ERROR "ChatTTS streaming synthesis failed"])
      end
  | Ret None => ([None], [])
  | Raise _ => ([None], [Log ERROR "ChatTTS streaming synthesis failed"])
  end.

(** The chunks among the yielded values, [None] left out. *)
Fixpoint chunks_of (yielded : list (option (list Sample))) : list (list Sample) :=
  match yielded with
  | [] => []
  | Some c :: rest => c :: chunks_of rest
  | None :: rest => chunks_of rest
  end.

End Chunking.
End Engines.

(* ===================================================================== *)
(** ** Concrete inputs                                                     *)
(* ===================================================================== *)

(** A stand-in for numpy on which the model runs: an array is the byte
    string of its samples and every operation returns its argument.  The
    results below are proved for every [Numpy]; this one only feeds the
    concrete runs. *)
Definition bytes_numpy : Numpy :=
  {| ndarray := bytes;
     np_ndim := fun _ => 1;
     np_reshape_col := fun a => a;
     np_column_stack2 := fun a => a;
     np_clip := fun a => a;
     np_scale_int16 := fun a => a;
     np_tobytes := fun a => a |}.

Module Examples.
Import Config.

(** An audio layer on which every call succeeds; the clock reads 1.0. *)
Definition good_device : AudioStreamer.Device :=
  {| AudioStreamer.pyaudio_imported := true;
     AudioStreamer.PyAudio_new := Ret 1%nat;
     AudioStreamer.open_stream := Ret 7%nat;
     AudioStreamer.stop_stream := fun _ => Ret tt;
     AudioStreamer.close_stream := fun _ => Ret tt;
     AudioStreamer.terminate := Ret tt;
     AudioStreamer.new_thread := 3%nat;
     AudioStreamer.start_thread := fun _ => Ret tt;
     AudioStreamer.is_alive := fun _ => true;
     AudioStreamer.join_thread := fun _ => Ret tt;
     AudioStreamer.time_time := 1%float |}.

(** Running a sequence of calls on a sink, keeping the final state. *)
Definition after {S A : Type} (c : Py S A) (s : S) : S := state_of (c s).

(** A two-sample chunk. *)
Definition chunk2 : @AudioStreamer.PyObj bytes_numpy :=
  @AudioStreamer.Nd bytes_numpy [Byte.x01; Byte.x00; Byte.x02; Byte.x00].

(** [n] calls of [queue_audio chunk2]. *)
Fixpoint enqueue_times (n : nat) (s : @AudioStreamer.self bytes_numpy) : @AudioStreamer.self bytes_numpy :=
  match n with
  | O => s
  | S n' => enqueue_times n' (after (AudioStreamer.queue_audio chunk2) s)
  end.

(** A fresh sink with the default settings, started in callback mode. *)
Definition started_sink : @AudioStreamer.self bytes_numpy :=
  after (AudioStreamer.start_output_stream good_device None)
        (AudioStreamer.__init__ good_device default_settings).

(** The started sink after one chunk was queued. *)
Definition sink_with_one_chunk : @AudioStreamer.self bytes_numpy :=
  enqueue_times 1 started_sink.

(** The started sink after 100 chunks were queued and none played. *)
Definition full_streaming_sink : @AudioStreamer.self bytes_numpy :=
  enqueue_times 100 started_sink.

(** The same sink once [stop_streaming] was called on it. *)
Definition full_stopped_sink : @AudioStreamer.self bytes_numpy :=
  after (AudioStreamer.stop_streaming good_device) full_streaming_sink.

(** Engines for the manager.  [E1] has only batch synthesis, which
    succeeds; [E2] has only incremental synthesis, which succeeds. *)
Definition E1 : @Engine.t bytes_numpy :=
  @Engine.Build_t bytes_numpy 1%nat
    (Some (fun _ _ _ _ => Ret (Some [Byte.x01; Byte.x00])))
    None.

Definition E2 : @Engine.t bytes_numpy :=
  @Engine.Build_t bytes_numpy 2%nat
    None
    (Some (fun _ _ _ => Ret (Some [[Byte.x02; Byte.x00]]))).

(** A primary whose every call returns [None].  This is how [synthesize] of
    the repository's engines fails; their [synthesize_streaming] is a
    generator function, whose call returns a generator even when the
    synthesis inside it fails. *)
Definition silent_primary : @Engine.t bytes_numpy :=
  @Engine.Build_t bytes_numpy 1%nat
    (Some (fun _ _ _ _ => Ret None))
    (Some (fun _ _ _ => Ret None)).

(** A primary whose every synthesis raises, with both methods. *)
Definition failing_primary : @Engine.t bytes_numpy :=
  @Engine.Build_t bytes_numpy 1%nat
    (Some (fun _ _ _ _ => Raise EngineFailure))
    (Some (fun _ _ _ => Raise EngineFailure)).

(** A fallback whose every synthesis succeeds, with both methods. *)
Definition working_fallback : @Engine.t bytes_numpy :=
  @Engine.Build_t bytes_numpy 2%nat
    (Some (fun _ _ _ _ => Ret (Some [Byte.x02; Byte.x00])))
    (Some (fun _ _ _ => Ret (Some [[Byte.x02; Byte.x00]]))).

(** A fallback whose every synthesis raises. *)
Definition failing_fallback : @Engine.t bytes_numpy :=
  @Engine.Build_t bytes_numpy 2%nat
    (Some (fun _ _ _ _ => Raise EngineFailure))
    (Some (fun _ _ _ => Raise EngineFailure)).

(** A realtime backend: incremental synthesis only. *)
Definition realtime_backend : @Engine.t bytes_numpy :=
  @Engine.Build_t bytes_numpy 3%nat
    None
    (Some (fun _ _ _ => Ret None)).

(** The manager [initialize] builds from the default settings (XTTS-v2
    primary, ChatTTS fallback) when the two engines load and the realtime
    backend does not. *)
Definition manager_of (primary fallback : @Engine.t bytes_numpy) : @VoiceManager.self bytes_numpy :=
  after (VoiceManager.initialize default_settings
           {| VoiceManager.xtts_engine := primary;
              VoiceManager.xtts_load_model := true;
              VoiceManager.chattts_engine := fallback;
              VoiceManager.chattts_load_model := true;
              VoiceManager.realtime_engine := realtime_backend;
              VoiceManager.realtime_initialize := false |})
        VoiceManager.__init__.

(** The manager [initialize] builds from the default settings when neither
    XTTS-v2 nor ChatTTS loads and the realtime backend does: its only engine,
    and its current engine, is the realtime one, which, like
    [RealtimeTTSEngine], has [synthesize_streaming] and no [synthesize]. *)
Definition realtime_only_manager : @VoiceManager.self bytes_numpy :=
  after (VoiceManager.initialize default_settings
           {| VoiceManager.xtts_engine := E1;
              VoiceManager.xtts_load_model := false;
              VoiceManager.chattts_engine := E2;
              VoiceManager.chattts_load_model := false;
              VoiceManager.realtime_engine := realtime_backend;
              VoiceManager.realtime_initialize := true |})
        VoiceManager.__init__.

(** What a batch and a streaming request do on the manager built from
    [primary] and [fallback]: each returns [None] after calling one method,
    of the engine of identity 1 (the primary). *)
Definition only_primary_called (primary fallback : @Engine.t bytes_numpy) : Prop :=
  outcome_of
    (VoiceManager.synthesize "hello" None "auto" VoiceManager.BATCH
       (manager_of primary fallback))
  = Ret None
  /\ invocations
       (trace_of
          (VoiceManager.synthesize "hello" None "auto" VoiceManager.BATCH
             (manager_of primary fallback)))
     = [(1%nat, MSynthesize)]
  /\ outcome_of
       (VoiceManager.synthesize "hello" None "auto" VoiceManager.STREAMING
          (manager_of primary fallback))
     = Ret None
  /\ invocations
       (trace_of
          (VoiceManager.synthesize "hello" None "auto" VoiceManager.STREAMING
             (manager_of primary fallback)))
     = [(1%nat, MSynthesizeStreaming)].

(** A new sink with the default settings. *)
Definition fresh_sink : @AudioStreamer.self bytes_numpy :=
  AudioStreamer.__init__ good_device default_settings.

(** An audio layer on which stopping a stream raises. *)
Definition faulty_device : AudioStreamer.Device :=
  {| AudioStreamer.pyaudio_imported := true;
     AudioStreamer.PyAudio_new := Ret 1%nat;
     AudioStreamer.open_stream := Ret 7%nat;
     AudioStreamer.stop_stream := fun _ => Raise DeviceError;
     AudioStreamer.close_stream := fun _ => Ret tt;
     AudioStreamer.terminate := Raise DeviceError;
     AudioStreamer.new_thread := 3%nat;
     AudioStreamer.start_thread := fun _ => Ret tt;
     AudioStreamer.is_alive := fun _ => true;
     AudioStreamer.join_thread := fun _ => Ret tt;
     AudioStreamer.time_time := 1%float |}.

(** The samples of [chunk2], and a second array. *)
Definition samples2 : @ndarray bytes_numpy := [Byte.x01; Byte.x00; Byte.x02; Byte.x00].
Definition samples3 : @ndarray bytes_numpy := [Byte.x03; Byte.x00].

(** A session: start, queue two chunks, play one, retune, fail to stop,
    clean up. *)
Definition session : list (AudioStreamer.Device * @AudioStreamer.Call bytes_numpy) :=
  [ (good_device, @AudioStreamer.CallStartOutput bytes_numpy None);
    (good_device, AudioStreamer.CallQueueAudio chunk2);
    (good_device, AudioStreamer.CallQueueAudio chunk2);
    (good_device, @AudioStreamer.CallOutputCallback bytes_numpy 1024);
    (good_device, @AudioStreamer.CallAdjustLatency bytes_numpy 200%float);
    (faulty_device, @AudioStreamer.CallStopStreaming bytes_numpy);
    (good_device, @AudioStreamer.CallCleanup bytes_numpy) ].

(** An audio layer on which the worker thread cannot be started. *)
Definition no_thread_device : AudioStreamer.Device :=
  {| AudioStreamer.pyaudio_imported := true;
     AudioStreamer.PyAudio_new := Ret 1%nat;
     AudioStreamer.open_stream := Ret 7%nat;
     AudioStreamer.stop_stream := fun _ => Ret tt;
     AudioStreamer.close_stream := fun _ => Ret tt;
     AudioStreamer.terminate := Ret tt;
     AudioStreamer.new_thread := 3%nat;
     AudioStreamer.start_thread := fun _ => Raise DeviceError;
     AudioStreamer.is_alive := fun _ => false;
     AudioStreamer.join_thread := fun _ => Ret tt;
     AudioStreamer.time_time := 1%float |}.

(** A new sink after [initialize]: it has a PyAudio instance and no stream. *)
Definition initialized_sink : @AudioStreamer.self bytes_numpy :=
  after (AudioStreamer.initialize good_device) fresh_sink.

(** A new sink started with a user callback (number 5). *)
Definition sink_with_callback : @AudioStreamer.self bytes_numpy :=
  after (AudioStreamer.start_output_stream good_device (Some 5%nat)) fresh_sink.

(** A generator like the engines': its first step synthesizes (one engine
    call) and yields the first chunk; the second chunk follows. *)
Definition synthesizing_generator : @AudioStreamer.Generator bytes_numpy :=
  AudioStreamer.GenYield
    [Invoke 1 MSynthesize "hello" "auto" None] (Some chunk2)
    (AudioStreamer.generator_of [chunk2]).

(** A second profile named [cute_girl], with another pitch. *)
Definition other_cute_girl : VoiceProfile :=
  {| name := "cute_girl"; gender := "female"; age_range := "young";
     language := "auto"; pitch := 2.0%float; speed := 1.0%float;
     emotion := "cheerful"; voice_sample_path := None |}.

End Examples.

(* ===================================================================== *)
(** ** Proof support                                                       *)
(* ===================================================================== *)

Unset Implicit Arguments.

(** Unfolds the monad so that a run becomes a nest of [match]es. *)
Ltac py_unfold :=
  cbv [bind ret raise try_except get modify emit log lift
       state_of outcome_of trace_of] in *.

(** Splits on the innermost scrutinee of a stuck [match] in the goal. *)
Ltac py_case :=
  match goal with
  | |- context [match ?x with _ => _ end] =>
      lazymatch x with
      | context [match _ with _ => _ end] => fail
      | _ => destruct x eqn:?
      end
  end.

Ltac py_cases := repeat (py_case; simpl in *; try congruence).

Lemma len_nonneg {A : Type} (l : list A) : 0 <= len l.
Proof. unfold len. lia. Qed.

Lemma len_bytes_repeat (b : Byte.byte) (n : Z) : len (bytes_repeat b n) = Z.max 0 n.
Proof. unfold len, bytes_repeat. rewrite repeat_length. lia. Qed.

Lemma bytes_repeat_all (b : Byte.byte) (n : Z) :
  Forall (fun x => x = b) (bytes_repeat b n).
Proof.
  unfold bytes_repeat. apply Forall_forall. intros x Hx.
  apply repeat_spec in Hx. exact Hx.
Qed.

(* ===================================================================== *)
(** ** The audio sink                                                      *)
(* ===================================================================== *)

Section SinkFacts.
Context `{Numpy}.
Import AudioStreamer.

(** C4.  On a tick of the playback loop that finds the queue empty, the
    callback returns normally with [paContinue] and a chunk of exactly
    [frame_count * channels * 2] zero bytes, and the only change to the sink
    is that [buffer_underruns] is one more than before. *)
Theorem C4_empty_queue_tick_underrun
    (dev : Device) (s : self) (frame_count : Z) :
  empty (audio_queue s) = true ->
  0 <= frame_count ->
  0 <= channels s ->
  exists silence : bytes,
    _output_callback dev frame_count s
      = (Ret (silence, paContinue),
         set_buffer_underruns (buffer_underruns s + 1) s, [])
    /\ buffer_underruns (state_of (_output_callback dev frame_count s))
       = buffer_underruns s + 1
    /\ len silence = frame_count * channels s * 2
    /\ Forall (fun b => b = Byte.x00) silence.
Proof.
  intros Hempty Hfc Hch.
  exists (bytes_repeat Byte.x00 (frame_count * channels s * 2)).
  assert (Hrun : _output_callback dev frame_count s
                 = (Ret (bytes_repeat Byte.x00 (frame_count * channels s * 2), paContinue),
                    set_buffer_underruns (buffer_underruns s + 1) s, [])).
  { unfold _output_callback. py_unfold. rewrite Hempty. reflexivity. }
  rewrite Hrun. repeat split.
  - rewrite len_bytes_repeat. nia.
  - apply bytes_repeat_all.
Qed.

(** C3 (as amended).  On a sink whose queue is full: if the sink is
    streaming, queueing an array returns [False], leaves the sink and its
    queue as they were and logs exactly one "Audio queue full, dropping
    frame" warning (the code has no counter of dropped frames); if the sink
    is not streaming, queueing anything returns [False], changes nothing and
    logs nothing. *)
Theorem C3_full_queue_drop (s : self) :
  full (audio_queue s) = true ->
  (is_streaming s = true ->
   forall a : ndarray,
     queue_audio (Nd a) s
       = (Ret false, s, [Log WARNING "Audio queue full, dropping frame"])
     /\ warnings "Audio queue full, dropping frame"
          (trace_of (queue_audio (Nd a) s)) = 1%nat)
  /\ (is_streaming s = false ->
      forall x : PyObj,
        queue_audio x s = (Ret false, s, [])).
Proof.
  intros Hfull. split.
  - intros Hs a.
    assert (Hrun : queue_audio (Nd a) s
                   = (Ret false, s, [Log WARNING "Audio queue full, dropping frame"])).
    { unfold queue_audio. py_unfold. rewrite Hs, Hfull. reflexivity. }
    rewrite Hrun. split; reflexivity.
  - intros Hs x. unfold queue_audio. py_unfold. rewrite Hs. reflexivity.
Qed.

(** C6.  One call of [adjust_latency] with target [T] on a sink whose
    measured latency is [L] and chunk size [c]: when [L > T * 1.5] the chunk
    size becomes [max(256, c // 2)]; otherwise, when [L < T * 0.5], it becomes
    [min(4096, c * 2)]; otherwise it is unchanged (comparisons and products
    are those of binary64 floats, as in the code).  With a latency of 350 ms
    and the default target of 200 ms the chunk size is halved once: from
    [c] to [max(256, c // 2)], and from 1024 to 512. *)
Theorem C6_adjust_latency_chunk_size :
  (forall (s : self) (T : float),
     chunk_size (state_of (adjust_latency T s))
     = if PrimFloat.ltb (PrimFloat.mul T 1.5%float) (latency_ms s)
       then Z.max 256 (chunk_size s / 2)
       else if PrimFloat.ltb (latency_ms s) (PrimFloat.mul T 0.5%float)
            then Z.min 4096 (chunk_size s * 2)
            else chunk_size s)
  /\ (forall s : self,
        chunk_size (state_of (adjust_latency default_target_latency_ms
                                (set_latency_ms 350%float s)))
        = Z.max 256 (chunk_size s / 2))
  /\ (forall s : self,
        chunk_size (state_of (adjust_latency default_target_latency_ms
                                (set_latency_ms 350%float (set_chunk_size 1024 s))))
        = 512).
Proof.
  assert (Hgen : forall (s : self) (T : float),
     chunk_size (state_of (adjust_latency T s))
     = if PrimFloat.ltb (PrimFloat.mul T 1.5%float) (latency_ms s)
       then Z.max 256 (chunk_size s / 2)
       else if PrimFloat.ltb (latency_ms s) (PrimFloat.mul T 0.5%float)
            then Z.min 4096 (chunk_size s * 2)
            else chunk_size s).
  { intros s T. unfold adjust_latency. py_unfold.
    destruct (PrimFloat.ltb (PrimFloat.mul T 1.5%float) (latency_ms s)); [reflexivity|].
    destruct (PrimFloat.ltb (latency_ms s) (PrimFloat.mul T 0.5%float)); reflexivity. }
  split; [exact Hgen|]. split.
  - intros s. rewrite Hgen. reflexivity.
  - intros s. rewrite Hgen. reflexivity.
Qed.

(** Splits on what the worker thread answers, then finds the event. *)
Ltac thread_cases dev th :=
  destruct th as [t|]; simpl;
  [ destruct (is_alive dev t); simpl;
    [ destruct (join_thread dev t) as [[]|] | ] | ];
  simpl; auto 10.

(** The state [stop_streaming] leaves, in closed form. *)
Lemma stop_streaming_state (dev : Device) (s : self) :
  state_of (stop_streaming dev s) = stopped dev s.
Proof.
  destruct s as [sr ch cs fm q os ist pa st rec th cb lat un lt].
  unfold stop_streaming, stop_and_close, stopped, closes. py_unfold. simpl.
  destruct os as [h|]; simpl.
  - destruct (stop_stream dev h) as [[]|]; simpl; [|reflexivity].
    destruct (close_stream dev h) as [[]|]; simpl; [|reflexivity].
    destruct ist as [i|]; simpl.
    + destruct (stop_stream dev i) as [[]|]; simpl; [|reflexivity].
      destruct (close_stream dev i) as [[]|]; simpl; [|reflexivity].
      destruct th as [t|]; simpl; [destruct (is_alive dev t); simpl; [destruct (join_thread dev t) as [[]|]|]|]; reflexivity.
    + destruct th as [t|]; simpl; [destruct (is_alive dev t); simpl; [destruct (join_thread dev t) as [[]|]|]|]; reflexivity.
  - destruct ist as [i|]; simpl.
    + destruct (stop_stream dev i) as [[]|]; simpl; [|reflexivity].
      destruct (close_stream dev i) as [[]|]; simpl; [|reflexivity].
      destruct th as [t|]; simpl; [destruct (is_alive dev t); simpl; [destruct (join_thread dev t) as [[]|]|]|]; reflexivity.
    + destruct th as [t|]; simpl; [destruct (is_alive dev t); simpl; [destruct (join_thread dev t) as [[]|]|]|]; reflexivity.
Qed.

(** [stop_streaming] catches whatever the device raises: it always returns. *)
Lemma stop_streaming_returns (dev : Device) (s : self) :
  outcome_of (stop_streaming dev s) = Ret tt.
Proof.
  destruct s. unfold stop_streaming, stop_and_close. py_unfold. simpl.
  py_cases; reflexivity.
Qed.

Lemma stopped_idle (dev : Device) (s : self) :
  is_streaming (stopped dev s) = false /\ is_recording (stopped dev s) = false.
Proof.
  unfold stopped.
  destruct (closes dev (output_stream s)); [destruct (closes dev (input_stream s))|];
    split; reflexivity.
Qed.

Lemma stopped_queue (dev : Device) (s : self) :
  audio_queue (stopped dev s) = audio_queue s.
Proof.
  unfold stopped.
  destruct (closes dev (output_stream s)); [destruct (closes dev (input_stream s))|];
    reflexivity.
Qed.

Lemma stopped_twice (dev : Device) (s : self) :
  stopped dev (stopped dev s) = stopped dev s.
Proof.
  destruct s as [sr ch cs fm q os ist pa st rec th cb lat un lt].
  unfold stopped; simpl.
  destruct (closes dev os) eqn:Eo; simpl; rewrite ?Eo; simpl.
  - destruct (closes dev ist) eqn:Ei; simpl; rewrite ?Ei; reflexivity.
  - reflexivity.
Qed.

Lemma drain_nil (q : list PyObj) : drain q = [].
Proof. induction q as [|x q IH]; [reflexivity | exact IH]. Qed.

(** What [cleanup] does after its call of [stop_streaming]. *)
Lemma cleanup_state (dev : Device) (s : self) :
  state_of (cleanup dev s)
  = set_audio_queue [] (set_pyaudio_instance None (stopped dev s)).
Proof.
  unfold cleanup. unfold bind at 1.
  pose proof (stop_streaming_state dev s) as Hst.
  pose proof (stop_streaming_returns dev s) as Hret.
  destruct (stop_streaming dev s) as [[o s1] t1].
  unfold state_of, outcome_of in Hst, Hret. simpl in Hst, Hret. subst o s1.
  py_unfold.
  destruct (stopped dev s) as [sr ch cs fm q os ist pa st rec th cb lat un lt].
  simpl. destruct pa as [p|]; simpl.
  - destruct (terminate dev) as [[]|]; simpl; rewrite drain_nil; reflexivity.
  - rewrite drain_nil. reflexivity.
Qed.

(** C8.  [stop_streaming] can be called on any sink, twice in a row, with
    the device answering as it will: both calls return without raising and
    the sink is Idle after each; with the device answering the second call
    as it did the first, the second call leaves the sink exactly as the
    first left it. *)
Theorem C8_stop_streaming_idempotent :
  (forall (dev1 dev2 : Device) (s : self),
     outcome_of (stop_streaming dev1 s) = Ret tt
     /\ sink_state (state_of (stop_streaming dev1 s)) = Idle
     /\ outcome_of (stop_streaming dev2 (state_of (stop_streaming dev1 s))) = Ret tt
     /\ sink_state (state_of (stop_streaming dev2 (state_of (stop_streaming dev1 s)))) = Idle)
  /\ (forall (dev : Device) (s : self),
        state_of (stop_streaming dev (state_of (stop_streaming dev s)))
        = state_of (stop_streaming dev s)).
Proof.
  split.
  - intros dev1 dev2 s. repeat split.
    + apply stop_streaming_returns.
    + unfold sink_state. rewrite stop_streaming_state.
      now rewrite (proj1 (stopped_idle dev1 s)).
    + apply stop_streaming_returns.
    + unfold sink_state. rewrite (stop_streaming_state dev2).
      now rewrite (proj1 (stopped_idle dev2 _)).
  - intros dev s. rewrite !stop_streaming_state. apply stopped_twice.
Qed.

(** C7 (as amended).  After [stop_streaming] returns the sink is Idle and
    not recording, and its queue holds what it held before: the queue is not
    flushed.  When stopping and closing the two stream handles raises
    nothing, both handles are closed (a [close] call was made on each) and
    cleared.  After [cleanup] returns, moreover, the PyAudio instance is
    released and the queue is empty. *)
Theorem C7_stop_then_cleanup (dev : Device) (s : self) :
  (sink_state (state_of (stop_streaming dev s)) = Idle
   /\ is_recording (state_of (stop_streaming dev s)) = false
   /\ audio_queue (state_of (stop_streaming dev s)) = audio_queue s)
  /\ (closes dev (output_stream s) = true ->
      closes dev (input_stream s) = true ->
      output_stream (state_of (stop_streaming dev s)) = None
      /\ input_stream (state_of (stop_streaming dev s)) = None
      /\ (forall h, output_stream s = Some h \/ input_stream s = Some h ->
                    In (StreamClose h) (trace_of (stop_streaming dev s)))
      /\ output_stream (state_of (cleanup dev s)) = None
      /\ input_stream (state_of (cleanup dev s)) = None)
  /\ (sink_state (state_of (cleanup dev s)) = Idle
      /\ pyaudio_instance (state_of (cleanup dev s)) = None
      /\ audio_queue (state_of (cleanup dev s)) = []).
Proof.
  split; [|split].
  - rewrite stop_streaming_state.
    unfold sink_state. rewrite (proj1 (stopped_idle dev s)), (proj2 (stopped_idle dev s)).
    rewrite stopped_queue. repeat split.
  - intros Ho Hi. rewrite cleanup_state, stop_streaming_state.
    repeat split; try (unfold stopped; rewrite Ho, Hi; reflexivity).
    intros h Hh.
    destruct s as [sr ch cs fm q os ist pa st rec th cb lat un lt].
    unfold stop_streaming, stop_and_close, closes in *. py_unfold. simpl in *.
    destruct os as [ho|]; simpl in *.
    + destruct (stop_stream dev ho) as [[]|]; [|discriminate].
      destruct (close_stream dev ho) as [[]|]; [|discriminate]. simpl.
      destruct ist as [hi|]; simpl in *.
      * destruct (stop_stream dev hi) as [[]|]; [|discriminate].
        destruct (close_stream dev hi) as [[]|]; [|discriminate]. simpl.
        destruct Hh as [Hh|Hh]; inversion Hh; subst; thread_cases dev th.
      * destruct Hh as [Hh|Hh]; inversion Hh; subst.
        thread_cases dev th.
    + destruct ist as [hi|]; simpl in *.
      * destruct (stop_stream dev hi) as [[]|]; [|discriminate].
        destruct (close_stream dev hi) as [[]|]; [|discriminate]. simpl.
        destruct Hh as [Hh|Hh]; inversion Hh; subst.
        thread_cases dev th.
      * destruct Hh as [Hh|Hh]; inversion Hh.
  - rewrite cleanup_state. unfold sink_state. simpl.
    rewrite (proj1 (stopped_idle dev s)). repeat split.
Qed.

End SinkFacts.

(** C4, at a concrete tick: the started sink, nothing queued, 1024 frames. *)
Lemma C4_witness :
  exists silence : bytes,
    AudioStreamer._output_callback Examples.good_device 1024 Examples.started_sink
      = (Ret (silence, AudioStreamer.paContinue),
         AudioStreamer.set_buffer_underruns
           (AudioStreamer.buffer_underruns Examples.started_sink + 1)
           Examples.started_sink, [])
    /\ AudioStreamer.buffer_underruns
         (state_of (AudioStreamer._output_callback Examples.good_device 1024
                      Examples.started_sink))
       = AudioStreamer.buffer_underruns Examples.started_sink + 1
    /\ len silence = 1024 * AudioStreamer.channels Examples.started_sink * 2
    /\ Forall (fun b => b = Byte.x00) silence.
Proof.
  apply (@C4_empty_queue_tick_underrun bytes_numpy Examples.good_device
           Examples.started_sink 1024).
  - reflexivity.
  - lia.
  - vm_compute. discriminate.
Defined.

(** C3 as stated fails.  On the full queue of a streaming sink the call
    leaves every attribute of the sink as it was, so no counter moved; on
    the same queue after [stop_streaming] (the queue is still full) the call
    returns [False] without recording a dropped frame at all. *)
Lemma C3_counterexample :
  AudioStreamer.full (AudioStreamer.audio_queue Examples.full_streaming_sink) = true
  /\ state_of (AudioStreamer.queue_audio Examples.chunk2 Examples.full_streaming_sink)
     = Examples.full_streaming_sink
  /\ AudioStreamer.full (AudioStreamer.audio_queue Examples.full_stopped_sink) = true
  /\ outcome_of (AudioStreamer.queue_audio Examples.chunk2 Examples.full_stopped_sink)
     = Ret false
  /\ warnings "Audio queue full, dropping frame"
       (trace_of (AudioStreamer.queue_audio Examples.chunk2 Examples.full_stopped_sink))
     <> 1%nat.
Proof.
  repeat split; try (vm_compute; reflexivity).
  vm_compute. discriminate.
Qed.

(** C3 (as amended), on the full queue of the streaming sink. *)
Lemma C3_witness :
  AudioStreamer.queue_audio Examples.chunk2 Examples.full_streaming_sink
  = (Ret false, Examples.full_streaming_sink,
     [Log WARNING "Audio queue full, dropping frame"]).
Proof.
  refine (proj1 (proj1 (@C3_full_queue_drop bytes_numpy Examples.full_streaming_sink _) _ _)).
  - vm_compute. reflexivity.
  - vm_compute. reflexivity.
Defined.

(** C7 as stated fails: a chunk queued before [stop_streaming] is still in
    the queue after it returned. *)
Lemma C7_counterexample :
  outcome_of (AudioStreamer.stop_streaming Examples.good_device Examples.sink_with_one_chunk)
  = Ret tt
  /\ AudioStreamer.audio_queue
       (state_of (AudioStreamer.stop_streaming Examples.good_device
                    Examples.sink_with_one_chunk))
     = [Examples.chunk2].
Proof.
  split; vm_compute; reflexivity.
Qed.

(** C7 (as amended), on the sink holding one chunk: the handle 7 opened by
    [start_output_stream] is closed and cleared. *)
Lemma C7_witness :
  AudioStreamer.output_stream
    (state_of (AudioStreamer.stop_streaming Examples.good_device Examples.sink_with_one_chunk))
  = None
  /\ In (StreamClose 7%nat)
        (trace_of (AudioStreamer.stop_streaming Examples.good_device
                     Examples.sink_with_one_chunk)).
Proof.
  destruct (@C7_stop_then_cleanup bytes_numpy Examples.good_device
              Examples.sink_with_one_chunk) as [_ [Hclosed _]].
  destruct (Hclosed eq_refl eq_refl) as [Ho [_ [Hin _]]].
  split.
  - exact Ho.
  - apply Hin. left. reflexivity.
Defined.

(* ===================================================================== *)
(** ** Slicing a buffer into chunks                                        *)
(* ===================================================================== *)

Section Slicing.
Variable A : Type.
Implicit Types l : list A.

(** For bounds [0 <= i <= j] a slice takes [j - i] elements after skipping
    [i]; the clamping to the length is what [firstn] and [skipn] do. *)
Lemma slice_nonneg l (i j : Z) :
  0 <= i -> i <= j ->
  slice l i j = firstn (Z.to_nat (j - i)) (skipn (Z.to_nat i) l).
Proof.
  intros Hi Hij. unfold slice, slice_bound.
  pose proof (len_nonneg l) as Hl.
  destruct (Z.ltb_spec i 0) as [?|_]; [lia|].
  destruct (Z.ltb_spec j 0) as [?|_]; [lia|].
  destruct (Z_le_gt_dec i (len l)) as [Hil|Hil].
  - rewrite (Z.min_r (len l) i) by lia.
    destruct (Z_le_gt_dec j (len l)) as [Hjl|Hjl].
    + rewrite (Z.min_r (len l) j) by lia. reflexivity.
    + rewrite (Z.min_l (len l) j) by lia.
      rewrite !firstn_all2; [reflexivity | |];
        rewrite length_skipn; unfold len in *; lia.
  - rewrite (Z.min_l (len l) i), (Z.min_l (len l) j) by lia.
    rewrite Z.sub_diag. simpl.
    rewrite (skipn_all2 (n := Z.to_nat i) l) by (unfold len in *; lia).
    now rewrite firstn_nil.
Qed.

Lemma len_slice_nonneg l (i j : Z) :
  0 <= i -> i <= j ->
  len (slice l i j) = Z.min (j - i) (Z.max 0 (len l - i)).
Proof.
  intros Hi Hij. rewrite slice_nonneg by assumption.
  unfold len. rewrite length_firstn, length_skipn. lia.
Qed.

(** Consecutive slices of width [step] starting at [i], enough of them
    to reach the end, concatenate to the buffer from [i] on. *)
Lemma concat_slices l (step : Z) :
  0 < step ->
  forall (n : nat) (i : Z),
    0 <= i ->
    len l <= i + Z.of_nat n * step ->
    List.concat (map (fun k => slice l k (k + step)) (range_from n i step))
    = skipn (Z.to_nat i) l.
Proof.
  intros Hstep n. induction n as [|n IH]; intros i Hi Hcover.
  - simpl. symmetry. apply skipn_all2. unfold len in *. lia.
  - cbn [range_from map List.concat].
    rewrite IH by lia.
    rewrite slice_nonneg by lia.
    replace (i + step - i) with step by lia.
    replace (Z.to_nat (i + step)) with (Z.to_nat step + Z.to_nat i)%nat by lia.
    rewrite <- skipn_skipn. apply firstn_skipn.
Qed.

Lemma length_range_from (n : nat) (i step : Z) :
  List.length (range_from n i step) = n.
Proof.
  revert i. induction n as [|n IH]; intros i; simpl; [reflexivity|].
  now rewrite IH.
Qed.

Lemma nth_error_range_from (n : nat) (i step : Z) (k : nat) :
  (k < n)%nat ->
  nth_error (range_from n i step) k = Some (i + Z.of_nat k * step).
Proof.
  revert i k. induction n as [|n IH]; intros i k Hk; [lia|].
  destruct k as [|k]; cbn [nth_error range_from].
  - f_equal. change (Z.of_nat 0) with 0. ring.
  - rewrite IH by lia. f_equal. rewrite Nat2Z.inj_succ. ring.
Qed.

Lemma In_range_from (n : nat) (i step x : Z) :
  In x (range_from n i step) ->
  exists k : nat, (k < n)%nat /\ x = i + Z.of_nat k * step.
Proof.
  revert i. induction n as [|n IH]; intros i Hin; simpl in Hin; [contradiction|].
  destruct Hin as [<-|Hin].
  - exists 0%nat. split; [lia | change (Z.of_nat 0) with 0; ring].
  - destruct (IH _ Hin) as [k [Hk ->]]. exists (S k).
    split; [lia | rewrite Nat2Z.inj_succ; ring].
Qed.

End Slicing.

(** The number of chunks [range(0, n, step)] gives: just enough to cover
    [n], and not one more. *)
Lemma range_count_covers (n step : Z) :
  0 <= n -> 0 < step ->
  n <= Z.of_nat (Z.to_nat ((n - 0 + step - 1) / step)) * step
  /\ Z.of_nat (Z.to_nat ((n - 0 + step - 1) / step)) * step < n + step.
Proof.
  intros Hn Hstep.
  assert (Hq : 0 <= (n - 0 + step - 1) / step) by (apply Z.div_pos; lia).
  rewrite Z2Nat.id by exact Hq.
  pose proof (Z.mul_div_le (n - 0 + step - 1) step Hstep).
  pose proof (Z.mul_succ_div_gt (n - 0 + step - 1) step Hstep).
  lia.
Qed.

Section ConverterFacts.
Context `{Numpy}.
Import VoiceManager.

(** C9.  For a positive chunk size, consuming [_convert_to_streaming audio
    chunk_size] yields chunks whose concatenation, in the order yielded, is
    the int16 byte encoding of [audio]; every chunk but the last is exactly
    [chunk_size * 2] bytes long, and every chunk (the last included) is
    non-empty and at most that long; nothing is logged. *)
Theorem C9_convert_to_streaming_chunks (audio : ndarray) (chunk_size : Z) :
  0 < chunk_size ->
  List.concat (fst (_convert_to_streaming audio chunk_size))
    = np_tobytes (np_scale_int16 audio)
  /\ (forall (k : nat) (c : bytes),
        nth_error (fst (_convert_to_streaming audio chunk_size)) k = Some c ->
        (S k < List.length (fst (_convert_to_streaming audio chunk_size)))%nat ->
        len c = chunk_size * 2)
  /\ (forall c : bytes,
        In c (fst (_convert_to_streaming audio chunk_size)) ->
        0 < len c <= chunk_size * 2)
  /\ snd (_convert_to_streaming audio chunk_size) = [].
Proof.
  intros Hcs.
  set (bs := np_tobytes (np_scale_int16 audio)).
  set (step := chunk_size * 2).
  assert (Hstep : 0 < step) by (unfold step; lia).
  pose proof (len_nonneg bs) as Hlen.
  destruct (range_count_covers (len bs) step Hlen Hstep) as [Hcover Htight].
  set (n := Z.to_nat ((len bs - 0 + step - 1) / step)) in *.
  assert (Hrun : _convert_to_streaming audio chunk_size
                 = (map (fun i => slice bs i (i + step)) (range_from n 0 step), [])).
  { unfold _convert_to_streaming, py_range. fold bs. fold step.
    destruct (Z.eqb_spec step 0) as [?|_]; [lia|].
    destruct (Z.ltb_spec 0 step) as [_|?]; [|lia].
    reflexivity. }
  rewrite Hrun. cbn [fst snd]. split; [|split; [|split]].
  - rewrite (concat_slices _ bs step Hstep n 0) by lia. reflexivity.
  - intros k c Hk Hlast.
    rewrite nth_error_map in Hk.
    rewrite length_map, length_range_from in Hlast.
    rewrite nth_error_range_from in Hk by lia.
    cbn in Hk. injection Hk as <-.
    rewrite len_slice_nonneg by nia. nia.
  - intros c Hc.
    apply in_map_iff in Hc. destruct Hc as [i [<- Hin]].
    apply In_range_from in Hin. destruct Hin as [k [Hk ->]].
    rewrite len_slice_nonneg by nia. nia.
  - reflexivity.
Qed.

End ConverterFacts.

(** C9, on a five-byte buffer cut into chunks of one sample (two bytes). *)
Lemma C9_witness :
  fst (@VoiceManager._convert_to_streaming bytes_numpy
         [Byte.x01; Byte.x02; Byte.x03; Byte.x04; Byte.x05] 1)
  = [[Byte.x01; Byte.x02]; [Byte.x03; Byte.x04]; [Byte.x05]]
  /\ List.concat (fst (@VoiceManager._convert_to_streaming bytes_numpy
                    [Byte.x01; Byte.x02; Byte.x03; Byte.x04; Byte.x05] 1))
     = [Byte.x01; Byte.x02; Byte.x03; Byte.x04; Byte.x05].
Proof.
  split.
  - reflexivity.
  - apply (@C9_convert_to_streaming_chunks bytes_numpy
             [Byte.x01; Byte.x02; Byte.x03; Byte.x04; Byte.x05] 1).
    lia.
Defined.

(* ===================================================================== *)
(** ** The voice manager                                                   *)
(* ===================================================================== *)

Section ManagerFacts.
Context `{Numpy}.
Import Config VoiceManager.

(** The per-mode helpers catch every exception: they return, and leave the
    manager as it was. *)
Lemma by_mode_returns mode e text lang vp (m : self) :
  exists r t, synthesize_by_mode mode e text lang vp m = (Ret r, m, t).
Proof.
  unfold synthesize_by_mode, _synthesize_realtime, _synthesize_batch,
    _synthesize_streaming, dict_mem.
  py_unfold.
  destruct mode; py_cases; do 2 eexists; reflexivity.
Qed.

(** They call at most one engine method, the one [dispatch] names. *)
Lemma invocations_by_mode mode e text lang vp (m : self) :
  invocations (trace_of (synthesize_by_mode mode e text lang vp m)) = dispatch m mode e.
Proof.
  unfold synthesize_by_mode, _synthesize_realtime, _synthesize_batch,
    _synthesize_streaming, dispatch, streaming_call, supports_batch,
    supports_incremental, is_some, dict_mem.
  py_unfold.
  destruct mode; py_cases; reflexivity.
Qed.

(** They hand the engine the profile they were given. *)
Lemma invoked_with_by_mode mode e text lang vp (m : self) :
  invoked_with vp (trace_of (synthesize_by_mode mode e text lang vp m)).
Proof.
  unfold invoked_with, synthesize_by_mode, _synthesize_realtime, _synthesize_batch,
    _synthesize_streaming, dict_mem.
  py_unfold.
  destruct mode; py_cases; repeat constructor.
Qed.

(** The calls they make are those [dispatch] names, each with the text, the
    language and the profile they were given. *)
Lemma invoke_events_by_mode mode e text lang vp (m : self) :
  invoke_events (trace_of (synthesize_by_mode mode e text lang vp m))
  = map (invoke_of text lang vp) (dispatch m mode e).
Proof.
  unfold synthesize_by_mode, _synthesize_realtime, _synthesize_batch,
    _synthesize_streaming, dispatch, streaming_call, supports_batch,
    supports_incremental, is_some, dict_mem, invoke_events, invoke_of.
  py_unfold.
  destruct mode; py_cases; reflexivity.
Qed.

(** Batch synthesis on an engine that has [synthesize]: one call, whose
    answer decides the result. *)
Lemma synthesize_batch_run e f text lang vp (m : self) :
  Engine.synthesize e = Some f ->
  _synthesize_batch e text lang vp m
  = (Ret (batch_result (f text lang (speaker_wav_of vp) vp)), m,
     Invoke (Engine.id e) MSynthesize text lang vp
     :: match f text lang (speaker_wav_of vp) vp with
        | Ret _ => []
        | Raise _ => [Log ERROR "Batch synthesis failed"]
        end).
Proof.
  intros Hf. unfold _synthesize_batch, batch_result. py_unfold. rewrite Hf.
  destruct (f text lang (speaker_wav_of vp) vp) as [r|x]; reflexivity.
Qed.

Lemma length_dispatch (m : self) mode e : (List.length (dispatch m mode e) <= 1)%nat.
Proof.
  unfold dispatch, streaming_call.
  destruct mode; py_cases; simpl; lia.
Qed.

(** The [try] block of [synthesize] on an initialized manager with a
    selected engine is the per-mode helper. *)
Lemma synthesize_body_selected text name lang mode (m : self) e :
  is_initialized m = true ->
  _select_engine m mode = Some e ->
  synthesize_body text name lang mode m
  = synthesize_by_mode mode e text lang (_get_voice_profile m name) m.
Proof.
  intros Hinit Hsel. unfold synthesize_body. py_unfold.
  rewrite Hinit, Hsel. simpl.
  destruct (synthesize_by_mode mode e text lang (_get_voice_profile m name) m)
    as [[r s] t].
  reflexivity.
Qed.

(** The [try] block of [synthesize] never raises. *)
Lemma synthesize_body_returns text name lang mode (m : self) :
  exists r t, synthesize_body text name lang mode m = (Ret r, m, t).
Proof.
  destruct (is_initialized m) eqn:Hinit.
  - destruct (_select_engine m mode) as [e|] eqn:Hsel.
    + rewrite (synthesize_body_selected text name lang mode m e Hinit Hsel).
      apply by_mode_returns.
    + unfold synthesize_body. py_unfold. rewrite Hinit, Hsel. simpl.
      do 2 eexists; reflexivity.
  - unfold synthesize_body. py_unfold. rewrite Hinit. simpl.
    do 2 eexists; reflexivity.
Qed.

(** Hence the [except] clause of [synthesize], and with it [_try_fallback],
    is never entered. *)
Lemma synthesize_is_body text name lang mode (m : self) :
  synthesize text name lang mode m = synthesize_body text name lang mode m.
Proof.
  unfold synthesize, try_except.
  destruct (synthesize_body_returns text name lang mode m) as [r [t E]].
  rewrite E. reflexivity.
Qed.

Lemma synthesize_selected text name lang mode (m : self) e :
  is_initialized m = true ->
  _select_engine m mode = Some e ->
  synthesize text name lang mode m
  = synthesize_by_mode mode e text lang (_get_voice_profile m name) m.
Proof.
  intros Hinit Hsel. rewrite synthesize_is_body.
  now apply synthesize_body_selected.
Qed.

Lemma synthesize_returns text name lang mode (m : self) :
  exists r, outcome_of (synthesize text name lang mode m) = Ret r.
Proof.
  rewrite synthesize_is_body.
  destruct (synthesize_body_returns text name lang mode m) as [r [t E]].
  rewrite E. exists r. reflexivity.
Qed.

Lemma synthesize_invokes_at_most_once text name lang mode (m : self) :
  (List.length (invocations (trace_of (synthesize text name lang mode m))) <= 1)%nat.
Proof.
  destruct (is_initialized m) eqn:Hinit.
  - destruct (_select_engine m mode) as [e|] eqn:Hsel.
    + rewrite (synthesize_selected text name lang mode m e Hinit Hsel).
      rewrite invocations_by_mode. apply length_dispatch.
    + rewrite synthesize_is_body. unfold synthesize_body. py_unfold.
      rewrite Hinit, Hsel. simpl. lia.
  - rewrite synthesize_is_body. unfold synthesize_body. py_unfold.
    rewrite Hinit. simpl. lia.
Qed.

(** A name that is not a key is replaced as [substitute_profile] says. *)
Lemma get_voice_profile_unknown (m : self) (name : option string) :
  (forall n, name = Some n -> dict_mem String.eqb n (voice_profiles m) = false) ->
  _get_voice_profile m name = substitute_profile m.
Proof.
  intros Hkey. unfold _get_voice_profile, substitute_profile.
  assert (Hfirst : str_truthy name
                   && dict_mem String.eqb (dflt "" name) (voice_profiles m) = false).
  { destruct name as [n|]; simpl.
    - rewrite (Hkey n eq_refl). apply andb_false_r.
    - reflexivity. }
  rewrite Hfirst.
  destruct (current_profile m) as [p|]; simpl; [reflexivity|].
  destruct (voice_profiles m) as [|[k v] d]; reflexivity.
Qed.

(** C10.  When the requested profile name is absent or is not a key of the
    profile map, [_get_voice_profile] returns the current profile if one is
    set, else the first registered profile, else none; [synthesize] does not
    raise, behaves as it does when no name is given, hands that substitute
    to every engine method it calls, and, on an initialized manager with a
    selected engine, is the per-mode synthesis run with the substitute: the
    engine calls it makes are exactly those the dispatch names, each made
    with the request's text and language and with the substitute profile;
    in batch mode on an engine that has [synthesize], that method is called
    with the substitute and with the substitute's voice sample, and what it
    answers is what [synthesize] returns. *)
Theorem C10_unknown_profile_substituted
    (m : self) (name : option string) (text lang : string) (mode : SynthesisMode) :
  (forall n, name = Some n -> dict_mem String.eqb n (voice_profiles m) = false) ->
  _get_voice_profile m name = substitute_profile m
  /\ (exists r, outcome_of (synthesize text name lang mode m) = Ret r)
  /\ synthesize text name lang mode m = synthesize text None lang mode m
  /\ invoked_with (substitute_profile m) (trace_of (synthesize text name lang mode m))
  /\ (forall e,
        is_initialized m = true ->
        _select_engine m mode = Some e ->
        synthesize text name lang mode m
        = synthesize_by_mode mode e text lang (substitute_profile m) m)
  /\ (forall e,
        is_initialized m = true ->
        _select_engine m mode = Some e ->
        invoke_events (trace_of (synthesize text name lang mode m))
        = map (invoke_of text lang (substitute_profile m)) (dispatch m mode e))
  /\ (forall e f,
        is_initialized m = true ->
        mode = BATCH ->
        _select_engine m mode = Some e ->
        Engine.synthesize e = Some f ->
        outcome_of (synthesize text name lang mode m)
        = Ret (batch_result
                 (f text lang (speaker_wav_of (substitute_profile m)) (substitute_profile m)))
        /\ invoke_events (trace_of (synthesize text name lang mode m))
           = [Invoke (Engine.id e) MSynthesize text lang (substitute_profile m)]).
Proof.
  intros Hkey.
  pose proof (get_voice_profile_unknown m name Hkey) as Hsub.
  assert (Hnone : _get_voice_profile m None = substitute_profile m).
  { apply get_voice_profile_unknown. intros n Hn. discriminate Hn. }
  split; [exact Hsub|]. split; [apply synthesize_returns|].
  split; [|split; [|split; [|split]]].
  - rewrite !synthesize_is_body. unfold synthesize_body. py_unfold.
    rewrite Hsub, Hnone. reflexivity.
  - destruct (is_initialized m) eqn:Hinit.
    + destruct (_select_engine m mode) as [e|] eqn:Hsel.
      * rewrite (synthesize_selected text name lang mode m e Hinit Hsel), Hsub.
        apply invoked_with_by_mode.
      * rewrite synthesize_is_body. unfold synthesize_body, invoked_with. py_unfold.
        rewrite Hinit, Hsel. simpl. repeat constructor.
    + rewrite synthesize_is_body. unfold synthesize_body, invoked_with. py_unfold.
      rewrite Hinit. simpl. repeat constructor.
  - intros e Hinit Hsel.
    rewrite (synthesize_selected text name lang mode m e Hinit Hsel), Hsub.
    reflexivity.
  - intros e Hinit Hsel.
    rewrite (synthesize_selected text name lang mode m e Hinit Hsel), Hsub.
    apply invoke_events_by_mode.
  - intros e f Hinit -> Hsel Hf.
    rewrite (synthesize_selected text name lang BATCH m e Hinit Hsel), Hsub.
    cbn [synthesize_by_mode].
    rewrite (synthesize_batch_run e f text lang (substitute_profile m) m Hf).
    unfold outcome_of, trace_of. cbn [fst snd]. split; [reflexivity|].
    unfold invoke_events.
    destruct (f text lang (speaker_wav_of (substitute_profile m)) (substitute_profile m));
      reflexivity.
Qed.

(** Selection in batch and streaming modes returns the current engine
    whenever one is set, whatever its capabilities. *)
Lemma select_current (m : self) (mode : SynthesisMode) (e : Engine.t) :
  mode <> REALTIME ->
  current_engine m = Some e ->
  _select_engine m mode = Some e.
Proof.
  intros Hmode Hcur. unfold _select_engine. rewrite Hcur.
  destruct mode; [reflexivity | reflexivity | congruence].
Qed.

End ManagerFacts.

Section DispatchFacts.
Context `{Numpy}.
Import Config VoiceManager.

(** C2 (as amended).  Selection does not look at capabilities: the engine
    it returns is the registered realtime engine in realtime mode, the
    current engine in batch and streaming modes whenever one is set, and
    otherwise the first registered engine.  Capability is checked when the
    request is dispatched: on an initialized manager, once [e] is selected,
    [synthesize] calls exactly the one method [dispatch] names -- in batch
    mode the batch method of [e] if it has one; in streaming mode its
    incremental method if it has one, else its batch method (whose buffer is
    then cut into chunks) -- and no method at all when [e] has none that
    fits.  So with a batch-only current engine a streaming request calls that
    engine's batch method and no other engine, whatever the fallback engine
    is. *)
Theorem C2_dispatch_checks_capability
    (m : self) (text lang : string) (name : option string)
    (mode : SynthesisMode) (e : Engine.t) :
  is_initialized m = true ->
  _select_engine m mode = Some e ->
  invocations (trace_of (synthesize text name lang mode m)) = dispatch m mode e
  /\ (mode = REALTIME ->
      forall rt, dict_get VoiceEngine_eqb REALTIME_TTS (engines m) = Some rt -> e = rt)
  /\ (mode <> REALTIME -> forall c, current_engine m = Some c -> e = c)
  /\ ((mode = REALTIME /\ dict_get VoiceEngine_eqb REALTIME_TTS (engines m) = None)
      \/ (mode <> REALTIME /\ current_engine m = None) ->
      dict_first (engines m) = Some e)
  /\ (mode = STREAMING ->
      supports_batch e = true ->
      supports_incremental e = false ->
      invocations (trace_of (synthesize text name lang mode m))
      = [(Engine.id e, MSynthesize)]).
Proof.
  intros Hinit Hsel.
  assert (Hinv : invocations (trace_of (synthesize text name lang mode m))
                 = dispatch m mode e).
  { rewrite (synthesize_selected text name lang mode m e Hinit Hsel).
    apply invocations_by_mode. }
  split; [exact Hinv|]. split; [|split; [|split]].
  - intros -> rt Hrt. unfold _select_engine, dict_mem in Hsel.
    rewrite Hrt in Hsel. simpl in Hsel. congruence.
  - intros Hmode c Hcur.
    rewrite (select_current m mode c Hmode Hcur) in Hsel. congruence.
  - intros Hcase. unfold _select_engine, dict_mem in Hsel.
    destruct Hcase as [[-> Hrt] | [Hmode Hcur]].
    + rewrite Hrt in Hsel. simpl in Hsel.
      destruct (engines m) as [|[k v] d]; [discriminate | exact Hsel].
    + rewrite Hcur in Hsel.
      destruct mode; [| |congruence]; simpl in Hsel;
        (destruct (engines m) as [|[k v] d]; [discriminate | exact Hsel]).
  - intros -> Hbatch Hinc. rewrite Hinv.
    unfold dispatch, streaming_call. rewrite Hinc, Hbatch. reflexivity.
Qed.

End DispatchFacts.

(** C5 as stated fails: a profile with pitch [-1.0] and speed [0.0] is
    constructed without any error. *)
Lemma C5_counterexample :
  exists p : Config.VoiceProfile,
    Config.VoiceProfile__init__ "broken" None None None
      (Some (-1.0)%float) (Some 0.0%float) None None = Ret p
    /\ Config.pitch p = (-1.0)%float
    /\ Config.speed p = 0.0%float
    /\ Config.profile_valid p = false.
Proof.
  eexists. split; [reflexivity|].
  repeat split.
Qed.

(** C5 (as amended).  Constructing a [VoiceProfile] never fails and checks
    nothing: the profile holds the pitch and speed it was given, or 1.0 for
    those left out.  A profile built with the default pitch and speed, and
    each of the three default profiles of the manager, has [pitch > 0] and
    [speed > 0]. *)
Theorem C5_profile_construction_unchecked :
  (forall (name : string) (gender age_range language : option string)
          (pitch speed : option float) (emotion path : option string),
     exists p : Config.VoiceProfile,
       Config.VoiceProfile__init__ name gender age_range language pitch speed emotion path
       = Ret p
       /\ Config.pitch p = Config.dflt 1.0%float pitch
       /\ Config.speed p = Config.dflt 1.0%float speed)
  /\ (forall (name : string) (gender age_range language emotion path : option string),
        exists p : Config.VoiceProfile,
          Config.VoiceProfile__init__ name gender age_range language None None emotion path
          = Ret p
          /\ Config.profile_valid p = true)
  /\ Config.profile_valid VoiceManager.cute_girl = true
  /\ Config.profile_valid VoiceManager.asmr_girl = true
  /\ Config.profile_valid VoiceManager.energetic_girl = true.
Proof.
  split; [|split].
  - intros. eexists. split; [reflexivity|]. split; reflexivity.
  - intros. eexists. split; [reflexivity|]. reflexivity.
  - repeat split.
Qed.

(** C2 as stated fails.  A manager whose only engine is the realtime one
    selects it for a batch request although it has no batch synthesis.  With
    the batch-only [E1] as primary and the incremental [E2] as fallback, a
    streaming request selects [E1], which has no incremental synthesis, and
    calls [E1] (identity 1), never [E2]. *)
Lemma C2_counterexample :
  (exists e,
     VoiceManager._select_engine Examples.realtime_only_manager VoiceManager.BATCH = Some e
     /\ VoiceManager.capable VoiceManager.BATCH e = false)
  /\ (exists e,
        VoiceManager._select_engine (Examples.manager_of Examples.E1 Examples.E2)
          VoiceManager.STREAMING = Some e
        /\ Engine.id e = Engine.id Examples.E1
        /\ VoiceManager.capable VoiceManager.STREAMING e = false)
  /\ invocations
       (trace_of (VoiceManager.synthesize "hello" None "auto" VoiceManager.STREAMING
                    (Examples.manager_of Examples.E1 Examples.E2)))
     = [(Engine.id Examples.E1, MSynthesize)].
Proof.
  split; [|split].
  - eexists. split; [vm_compute; reflexivity | reflexivity].
  - eexists. split; [vm_compute; reflexivity | split; reflexivity].
  - vm_compute. reflexivity.
Qed.

(** C2 (as amended), on the manager with [E1] as primary and [E2] as
    fallback, for a streaming request. *)
Lemma C2_witness :
  invocations
    (trace_of (VoiceManager.synthesize "hello" None "auto" VoiceManager.STREAMING
                 (Examples.manager_of Examples.E1 Examples.E2)))
  = VoiceManager.dispatch (Examples.manager_of Examples.E1 Examples.E2)
      VoiceManager.STREAMING Examples.E1.
Proof.
  refine (proj1 (@C2_dispatch_checks_capability bytes_numpy
                   (Examples.manager_of Examples.E1 Examples.E2) "hello" "auto" None
                   VoiceManager.STREAMING Examples.E1 _ _)).
  - vm_compute. reflexivity.
  - vm_compute. reflexivity.
Defined.

(** C10, on the default manager asked for a profile nobody registered:
    the current profile [cute_girl] is used, and it is the profile the batch
    method of the primary engine is called with. *)
Lemma C10_witness :
  VoiceManager._get_voice_profile (Examples.manager_of Examples.E1 Examples.E2)
    (Some "nobody")
  = Some VoiceManager.cute_girl
  /\ VoiceManager.invoke_events
       (trace_of (VoiceManager.synthesize "hello" (Some "nobody") "auto" VoiceManager.BATCH
                    (Examples.manager_of Examples.E1 Examples.E2)))
     = [Invoke 1 MSynthesize "hello" "auto" (Some VoiceManager.cute_girl)].
Proof.
  destruct (@C10_unknown_profile_substituted bytes_numpy
              (Examples.manager_of Examples.E1 Examples.E2)
              (Some "nobody") "hello" "auto" VoiceManager.BATCH)
    as [Hsub [_ [_ [_ [_ [Hcalls _]]]]]].
  - intros n Hn. injection Hn as <-. vm_compute. reflexivity.
  - split.
    + rewrite Hsub. vm_compute. reflexivity.
    + rewrite (Hcalls Examples.E1); vm_compute; reflexivity.
Defined.

(** C1: what the code does where the claim expects a retry.  For every
    manager and request the [except] clause of [synthesize] is dead
    ([synthesize] is its [try] block) and at most one engine method is
    called.  On the manager with a primary that always fails, by raising or
    by returning [None], and a distinct fallback that always succeeds, a
    batch request and a streaming request each return [None] after one call,
    on the primary (identity 1): the fallback (identity 2) is not called.
    With a fallback that fails too the call ends after that same single
    invocation. *)
Theorem C1_fallback_never_reached :
  (forall (np : Numpy) (m : VoiceManager.self) (text lang : string)
          (name : option string) (mode : VoiceManager.SynthesisMode),
     VoiceManager.synthesize text name lang mode m
     = VoiceManager.synthesize_body text name lang mode m
     /\ (List.length
           (invocations (trace_of (VoiceManager.synthesize text name lang mode m)))
         <= 1)%nat)
  /\ VoiceManager.engine_ne
       (VoiceManager.fallback_engine
          (Examples.manager_of Examples.failing_primary Examples.working_fallback))
       (VoiceManager.current_engine
          (Examples.manager_of Examples.failing_primary Examples.working_fallback))
     = true
  /\ Examples.only_primary_called Examples.failing_primary Examples.working_fallback
  /\ Examples.only_primary_called Examples.silent_primary Examples.working_fallback
  /\ invocations
       (trace_of
          (VoiceManager.synthesize "hello" None "auto" VoiceManager.BATCH
             (Examples.manager_of Examples.failing_primary Examples.failing_fallback)))
     = [(1%nat, MSynthesize)].
Proof.
  split; [|split; [|split; [|split]]].
  - intros np m text lang name mode. split.
    + apply synthesize_is_body.
    + apply synthesize_invokes_at_most_once.
  - vm_compute. reflexivity.
  - repeat split; vm_compute; reflexivity.
  - repeat split; vm_compute; reflexivity.
  - vm_compute. reflexivity.
Qed.

(* ===================================================================== *)
(** ** More of the audio sink                                              *)
(* ===================================================================== *)

Section SinkMore.
Context `{Numpy}.
Import AudioStreamer.

(** What a call of [queue_audio] does, case by case. *)
Lemma queue_audio_run (x : PyObj) (s : self) :
  queue_audio x s
  = if negb (is_streaming s) then (Ret false, s, [])
    else match x with
         | Nd a =>
             if negb (full (audio_queue s))
             then (Ret true, set_audio_queue (audio_queue s ++ [queued_form s a]) s, [])
             else (Ret false, s, [Log WARNING "Audio queue full, dropping frame"])
         | Bytes _ => (Ret false, s, [Log ERROR "Invalid audio data type"])
         end.
Proof.
  unfold queue_audio, queued_form. py_unfold.
  destruct (is_streaming s); simpl; [|reflexivity].
  destruct x as [a|b]; simpl; [|reflexivity].
  destruct (full (audio_queue s)); reflexivity.
Qed.

(** The padding or truncation written in [_output_callback] is [rendered]. *)
Lemma rendered_code (item : PyObj) (r : Z) :
  0 <= r ->
  (let audio_data := match item with
                     | Nd a => np_tobytes (np_scale_int16 a)
                     | Bytes b => b
                     end in
   if len audio_data <? r
   then audio_data ++ bytes_repeat Byte.x00 (r - len audio_data)
   else if r <? len audio_data then slice_to audio_data r else audio_data)
  = rendered item r.
Proof.
  intros Hr. unfold rendered. cbv zeta.
  set (d := match item with Nd a => np_tobytes (np_scale_int16 a) | Bytes b => b end).
  pose proof (len_nonneg d) as Hd.
  destruct (Z.ltb_spec (len d) r) as [Hlt|Hge].
  - symmetry. apply firstn_all2.
    rewrite length_app. unfold bytes_repeat. rewrite repeat_length.
    unfold len in *. lia.
  - assert (Hrep : bytes_repeat Byte.x00 (r - len d) = []).
    { unfold bytes_repeat. replace (Z.to_nat (r - len d)) with 0%nat by lia. reflexivity. }
    rewrite Hrep, app_nil_r.
    destruct (Z.ltb_spec r (len d)) as [Hlt|Hge'].
    + unfold slice_to. rewrite slice_nonneg by lia.
      rewrite Z.sub_0_r. reflexivity.
    + symmetry. apply firstn_all2. unfold len in *. lia.
Qed.

Lemma output_callback_run (dev : Device) (fc : Z) (s : self) :
  0 <= fc * channels s * 2 ->
  _output_callback dev fc s
  = match audio_queue s with
    | [] => (Ret (bytes_repeat Byte.x00 (fc * channels s * 2), paContinue),
             set_buffer_underruns (buffer_underruns s + 1) s, [])
    | item :: rest =>
        (Ret (rendered item (fc * channels s * 2), paContinue),
         set_last_audio_time (time_time dev) (set_audio_queue rest s), [])
    end.
Proof.
  intros Hreq. unfold _output_callback. py_unfold.
  destruct (audio_queue s) as [|item rest] eqn:Hq.
  - reflexivity.
  - assert (Hne : empty (item :: rest) = false).
    { unfold empty, qsize, len. apply Z.eqb_neq. simpl List.length. lia. }
    rewrite Hne. cbn [negb]. cbv beta iota.
    f_equal. f_equal. f_equal. f_equal.
    apply rendered_code. exact Hreq.
Qed.

(** The sink a tick leaves, whatever the buffer size asked for. *)
Lemma output_callback_state (dev : Device) (fc : Z) (s : self) :
  state_of (_output_callback dev fc s)
  = match audio_queue s with
    | [] => set_buffer_underruns (buffer_underruns s + 1) s
    | item :: rest => set_last_audio_time (time_time dev) (set_audio_queue rest s)
    end.
Proof.
  unfold _output_callback. py_unfold.
  destruct (audio_queue s) as [|item rest] eqn:Hq.
  - reflexivity.
  - assert (Hne : empty (item :: rest) = false).
    { unfold empty, qsize, len. apply Z.eqb_neq. simpl List.length. lia. }
    rewrite Hne. reflexivity.
Qed.

Lemma start_output_stream_frame (dev : Device) (cb : option nat) (s : self) :
  same_queue_and_counters s (state_of (start_output_stream dev cb s))
  /\ chunk_size (state_of (start_output_stream dev cb s)) = chunk_size s
  /\ is_recording (state_of (start_output_stream dev cb s)) = is_recording s
  /\ input_stream (state_of (start_output_stream dev cb s)) = input_stream s
  /\ ((is_streaming s = true -> output_stream s <> None) ->
      is_streaming (state_of (start_output_stream dev cb s)) = true ->
      output_stream (state_of (start_output_stream dev cb s)) <> None).
Proof.
  destruct s as [sr ch cs fm q os ist pa st rec th cb' lat un lt].
  unfold start_output_stream, initialize, same_queue_and_counters. py_unfold. simpl.
  py_cases; repeat split; auto; try discriminate.
Qed.

Lemma start_input_stream_frame (dev : Device) (s : self) :
  same_queue_and_counters s (state_of (start_input_stream dev s))
  /\ chunk_size (state_of (start_input_stream dev s)) = chunk_size s
  /\ is_streaming (state_of (start_input_stream dev s)) = is_streaming s
  /\ output_stream (state_of (start_input_stream dev s)) = output_stream s
  /\ ((is_recording s = true -> input_stream s <> None) ->
      is_recording (state_of (start_input_stream dev s)) = true ->
      input_stream (state_of (start_input_stream dev s)) <> None).
Proof.
  destruct s as [sr ch cs fm q os ist pa st rec th cb' lat un lt].
  unfold start_input_stream, initialize, same_queue_and_counters. py_unfold. simpl.
  py_cases; repeat split; auto; try discriminate.
Qed.

(** What a call of [_input_callback] does, case by case. *)
Lemma input_callback_run (dev : Device) (callback : bytes -> Py self unit)
    (in_data : bytes) (s : self) :
  _input_callback dev callback in_data s
  = if pyaudio_imported dev then
      (Ret (in_data, paContinue),
       state_of (callback_run callback in_data s),
       trace_of (callback_run callback in_data s)
       ++ match outcome_of (callback_run callback in_data s) with
          | Ret _ => []
          | Raise _ => [input_callback_error]
          end)
    else
      (Raise AttributeError,
       state_of (callback_run callback in_data s),
       trace_of (callback_run callback in_data s) ++ [input_callback_error]).
Proof.
  unfold _input_callback, callback_run, pyaudio_paContinue. py_unfold.
  destruct (callback_function s) as [c|].
  - destruct (callback in_data s) as [[[[]|e] s1] t1];
      destruct (pyaudio_imported dev); cbn; rewrite ?app_nil_r; reflexivity.
  - destruct (pyaudio_imported dev); reflexivity.
Qed.

(** A user callback that leaves the sink alone makes [_input_callback] leave
    it alone. *)
Lemma input_callback_state (dev : Device) (r : Outcome unit) (in_data : bytes) (s : self) :
  state_of (_input_callback dev (fun _ => lift r) in_data s) = s.
Proof.
  rewrite input_callback_run. unfold callback_run, lift.
  destruct (pyaudio_imported dev), (callback_function s); reflexivity.
Qed.

Lemma worker_iteration_state (dev : Device) (s : self) :
  state_of (_stream_worker_iteration dev s)
  = if PrimFloat.ltb 0%float (last_audio_time s)
    then set_latency_ms
           (PrimFloat.mul (PrimFloat.sub (time_time dev) (last_audio_time s)) 1000%float) s
    else s.
Proof.
  unfold _stream_worker_iteration. py_unfold.
  destruct (PrimFloat.ltb 0%float (last_audio_time s)); reflexivity.
Qed.

Lemma adjust_latency_state (T : float) (s : self) :
  state_of (adjust_latency T s)
  = if PrimFloat.ltb (PrimFloat.mul T 1.5%float) (latency_ms s)
    then set_chunk_size (Z.max 256 (chunk_size s / 2)) s
    else if PrimFloat.ltb (latency_ms s) (PrimFloat.mul T 0.5%float)
         then set_chunk_size (Z.min 4096 (chunk_size s * 2)) s
         else s.
Proof.
  unfold adjust_latency. py_unfold.
  destruct (PrimFloat.ltb (PrimFloat.mul T 1.5%float) (latency_ms s)); [reflexivity|].
  destruct (PrimFloat.ltb (latency_ms s) (PrimFloat.mul T 0.5%float)); reflexivity.
Qed.

Lemma queue_audio_returns (x : PyObj) (s : self) :
  exists b, outcome_of (queue_audio x s) = Ret b.
Proof.
  rewrite queue_audio_run.
  destruct (is_streaming s); cbn [negb]; [|eexists; reflexivity].
  destruct x; [destruct (full (audio_queue s))|]; eexists; reflexivity.
Qed.

(** One round of the loop of [stream_audio_generator]. *)
Lemma stream_loop_yield (ran : Trace) (chunk : option PyObj) (rest : Generator)
    (s : self) :
  stream_loop (GenYield ran chunk rest) s
  = if negb (is_streaming s) then (Ret tt, s, ran)
    else match chunk with
         | Some c =>
             (outcome_of (stream_loop rest (state_of (queue_audio c s))),
              state_of (stream_loop rest (state_of (queue_audio c s))),
              ran ++ trace_of (queue_audio c s)
              ++ trace_of (stream_loop rest (state_of (queue_audio c s))))
         | None =>
             (outcome_of (stream_loop rest s),
              state_of (stream_loop rest s),
              ran ++ trace_of (stream_loop rest s))
         end.
Proof.
  cbn [stream_loop]. unfold emit_all. py_unfold.
  destruct (is_streaming s); cbn [negb]; [|now rewrite app_nil_r].
  destruct chunk as [c|].
  - destruct (queue_audio_returns c s) as [b Hb].
    destruct (queue_audio c s) as [[o s1] t1]. cbn in Hb. subst o. cbn.
    destruct (stream_loop rest s1) as [[o2 s2] t2]. cbn.
    now rewrite app_nil_r.
  - cbn. destruct (stream_loop rest s) as [[o2 s2] t2]. reflexivity.
Qed.

(** The loop of [stream_audio_generator] only ever calls [queue_audio]. *)
Lemma stream_loop_ind (P : self -> Prop) (g : Generator) :
  (forall x s, P s -> P (state_of (queue_audio x s))) ->
  forall s, P s -> P (state_of (stream_loop g s)).
Proof.
  intros Hq. induction g as [ran|ran chunk rest IH|ran e]; intros s Hs.
  - exact Hs.
  - rewrite stream_loop_yield.
    destruct (is_streaming s); cbn [negb]; [|exact Hs].
    destruct chunk as [c|]; [|now apply IH].
    apply IH. now apply Hq.
  - exact Hs.
Qed.

Lemma stream_audio_generator_state (g : Generator) (s : self) :
  state_of (stream_audio_generator g s) = state_of (stream_loop g s).
Proof.
  unfold stream_audio_generator, try_except. py_unfold.
  destruct (stream_loop g s) as [[[u|e] s1] t1]; reflexivity.
Qed.

Lemma stream_audio_generator_returns (g : Generator) (s : self) :
  outcome_of (stream_audio_generator g s) = Ret tt.
Proof.
  unfold stream_audio_generator, try_except. py_unfold.
  destruct (stream_loop g s) as [[[[]|e] s1] t1]; reflexivity.
Qed.

(** A property kept by every call is kept by every sequence of calls. *)
Lemma after_calls_preserves (P : self -> Prop) :
  (forall dev c s, P s -> P (after_call dev c s)) ->
  forall calls s, P s -> P (after_calls calls s).
Proof.
  intros Hstep calls. induction calls as [|[dev c] rest IH]; intros s Hs.
  - exact Hs.
  - cbn [after_calls]. apply IH. now apply Hstep.
Qed.

Lemma queue_audio_bound (x : PyObj) (s : self) :
  qsize (audio_queue s) <= maxsize ->
  qsize (audio_queue (state_of (queue_audio x s))) <= maxsize.
Proof.
  intros Hb. rewrite queue_audio_run.
  destruct (is_streaming s); cbn [negb]; [|exact Hb].
  destruct x as [a|b]; [|exact Hb].
  destruct (full (audio_queue s)) eqn:Hfull; cbn [negb]; [exact Hb|].
  unfold state_of. cbn. unfold full in Hfull.
  apply andb_false_iff in Hfull. destruct Hfull as [Hm|Hm].
  - discriminate Hm.
  - apply Z.leb_gt in Hm. unfold qsize, len in *. rewrite length_app. cbn. lia.
Qed.

Lemma after_call_queue_bound (dev : Device) (c : Call) (s : self) :
  qsize (audio_queue s) <= maxsize ->
  qsize (audio_queue (after_call dev c s)) <= maxsize.
Proof.
  intros Hb. destruct c; cbn [after_call].
  - now rewrite (proj1 (proj1 (start_output_stream_frame dev callback s))).
  - now rewrite (proj1 (proj1 (start_input_stream_frame dev s))).
  - now apply queue_audio_bound.
  - rewrite stream_audio_generator_state.
    apply (stream_loop_ind (fun s => qsize (audio_queue s) <= maxsize)); [|exact Hb].
    intros x s0. apply queue_audio_bound.
  - rewrite output_callback_state.
    destruct (audio_queue s) as [|item rest] eqn:Hq; cbn.
    + rewrite Hq. exact Hb.
    + unfold qsize, len in *. cbn in Hb. lia.
  - now rewrite (input_callback_state dev callback_result in_data s).
  - rewrite worker_iteration_state.
    destruct (PrimFloat.ltb 0%float (last_audio_time s)); exact Hb.
  - rewrite adjust_latency_state.
    destruct (PrimFloat.ltb _ _); [exact Hb|]. destruct (PrimFloat.ltb _ _); exact Hb.
  - rewrite stop_streaming_state, stopped_queue. exact Hb.
  - rewrite cleanup_state. cbn. unfold maxsize. lia.
Qed.

(** X1.  Whatever calls are made on a sink, in whatever order and whatever
    the audio layer answers, a queue that holds at most 100 items holds at
    most 100 items afterwards. *)
Theorem queue_never_exceeds_capacity (calls : list (Device * Call)) (s : self) :
  qsize (audio_queue s) <= maxsize ->
  qsize (audio_queue (after_calls calls s)) <= maxsize.
Proof.
  apply (after_calls_preserves (fun s => qsize (audio_queue s) <= maxsize)).
  intros dev c s0. apply after_call_queue_bound.
Qed.

Lemma queue_audio_flags (x : PyObj) (s : self) :
  flags_have_handles s -> flags_have_handles (state_of (queue_audio x s)).
Proof.
  intros Hf. rewrite queue_audio_run.
  destruct (is_streaming s) eqn:Hs; cbn [negb]; [|exact Hf].
  destruct x as [a|b]; [|exact Hf].
  destruct (full (audio_queue s)); cbn [negb]; [exact Hf|].
  destruct Hf as [Ho Hi]. split; cbn; auto.
Qed.

Lemma after_call_flags (dev : Device) (c : Call) (s : self) :
  flags_have_handles s -> flags_have_handles (after_call dev c s).
Proof.
  intros Hf. destruct c; cbn [after_call].
  - destruct (start_output_stream_frame dev callback s) as [_ [_ [Hr [Hi Ho]]]].
    destruct Hf as [Hf1 Hf2]. split; [now apply Ho|].
    rewrite Hr, Hi. exact Hf2.
  - destruct (start_input_stream_frame dev s) as [_ [_ [Hr [Ho Hi]]]].
    destruct Hf as [Hf1 Hf2]. split; [|now apply Hi].
    rewrite Hr, Ho. exact Hf1.
  - now apply queue_audio_flags.
  - rewrite stream_audio_generator_state.
    apply (stream_loop_ind flags_have_handles); [|exact Hf].
    intros x s0. apply queue_audio_flags.
  - rewrite output_callback_state.
    destruct Hf as [Hf1 Hf2].
    destruct (audio_queue s); split; cbn; auto.
  - now rewrite (input_callback_state dev callback_result in_data s).
  - rewrite worker_iteration_state.
    destruct (PrimFloat.ltb 0%float (last_audio_time s)); [|exact Hf].
    destruct Hf as [Hf1 Hf2]. split; cbn; auto.
  - rewrite adjust_latency_state. destruct Hf as [Hf1 Hf2].
    destruct (PrimFloat.ltb _ _); [split; cbn; auto|].
    destruct (PrimFloat.ltb _ _); split; cbn; auto.
  - rewrite stop_streaming_state.
    destruct (stopped_idle dev s) as [Hs Hr].
    split; intros Ht; congruence.
  - rewrite cleanup_state.
    destruct (stopped_idle dev s) as [Hs Hr].
    split; cbn; intros Ht; congruence.
Qed.

Lemma after_call_chunk_range (dev : Device) (c : Call) (s : self) :
  256 <= chunk_size s <= 4096 ->
  256 <= chunk_size (after_call dev c s) <= 4096.
Proof.
  intros Hc. destruct c; cbn [after_call].
  - now rewrite (proj1 (proj2 (start_output_stream_frame dev callback s))).
  - now rewrite (proj1 (proj2 (start_input_stream_frame dev s))).
  - rewrite queue_audio_run.
    destruct (is_streaming s); cbn [negb]; [|exact Hc].
    destruct audio_data; [destruct (full (audio_queue s))|]; exact Hc.
  - rewrite stream_audio_generator_state.
    apply (stream_loop_ind (fun s => 256 <= chunk_size s <= 4096)); [|exact Hc].
    intros x s0 H0. rewrite queue_audio_run.
    destruct (is_streaming s0); cbn [negb]; [|exact H0].
    destruct x; [destruct (full (audio_queue s0))|]; exact H0.
  - rewrite output_callback_state. destruct (audio_queue s); exact Hc.
  - now rewrite (input_callback_state dev callback_result in_data s).
  - rewrite worker_iteration_state.
    destruct (PrimFloat.ltb 0%float (last_audio_time s)); exact Hc.
  - rewrite adjust_latency_state.
    destruct (PrimFloat.ltb _ _); [cbn; pose proof (Z.div_pos (chunk_size s) 2); 
      assert (chunk_size s / 2 <= chunk_size s) by (apply Z.div_le_upper_bound; lia); lia|].
    destruct (PrimFloat.ltb _ _); [cbn; lia | exact Hc].
  - rewrite stop_streaming_state. unfold stopped.
    destruct (closes dev (output_stream s)); [destruct (closes dev (input_stream s))|]; exact Hc.
  - rewrite cleanup_state. cbn. unfold stopped.
    destruct (closes dev (output_stream s)); [destruct (closes dev (input_stream s))|]; exact Hc.
Qed.

Lemma after_call_underruns (dev : Device) (c : Call) (s : self) :
  buffer_underruns s <= buffer_underruns (after_call dev c s).
Proof.
  destruct c; cbn [after_call].
  - rewrite (proj2 (proj1 (start_output_stream_frame dev callback s))). lia.
  - rewrite (proj2 (proj1 (start_input_stream_frame dev s))). lia.
  - rewrite queue_audio_run.
    destruct (is_streaming s); cbn [negb]; [|cbn; lia].
    destruct audio_data; [destruct (full (audio_queue s))|]; cbn; lia.
  - rewrite stream_audio_generator_state.
    apply (stream_loop_ind (fun s' => buffer_underruns s <= buffer_underruns s')); [|lia].
    intros x s0 H0. rewrite queue_audio_run.
    destruct (is_streaming s0); cbn [negb]; [|exact H0].
    destruct x; [destruct (full (audio_queue s0))|]; exact H0.
  - rewrite output_callback_state. destruct (audio_queue s); cbn; lia.
  - rewrite (input_callback_state dev callback_result in_data s). lia.
  - rewrite worker_iteration_state.
    destruct (PrimFloat.ltb 0%float (last_audio_time s)); cbn; lia.
  - rewrite adjust_latency_state.
    destruct (PrimFloat.ltb _ _); [cbn; lia|].
    destruct (PrimFloat.ltb _ _); cbn; lia.
  - rewrite stop_streaming_state. unfold stopped.
    destruct (closes dev (output_stream s)); [destruct (closes dev (input_stream s))|]; cbn; lia.
  - rewrite cleanup_state. cbn. unfold stopped.
    destruct (closes dev (output_stream s)); [destruct (closes dev (input_stream s))|]; cbn; lia.
Qed.

Lemma len_rendered (item : PyObj) (r : Z) : 0 <= r -> len (rendered item r) = r.
Proof.
  intros Hr. unfold rendered, len.
  rewrite length_firstn, length_app. unfold bytes_repeat. rewrite repeat_length.
  lia.
Qed.

(** X5.  A tick of the playback loop as PyAudio makes it ([pyaudio] is
    imported, the buffer size is not negative) hands the device exactly
    [frame_count * channels * 2] bytes and [paContinue].  When the queue is
    not empty it takes the oldest item off the queue, returns its bytes
    zero-padded or cut to that size, leaves the underrun counter alone and
    stamps [last_audio_time] with the clock. *)
Theorem output_callback_fills_buffer (dev : Device) (frame_count : Z) (s : self) :
  pyaudio_imported dev = true ->
  0 <= frame_count ->
  0 <= channels s ->
  exists out : bytes,
    outcome_of (_output_callback dev frame_count s) = Ret (out, paContinue)
    /\ len out = frame_count * channels s * 2
    /\ (forall item rest,
          audio_queue s = item :: rest ->
          out = rendered item (frame_count * channels s * 2)
          /\ audio_queue (state_of (_output_callback dev frame_count s)) = rest
          /\ buffer_underruns (state_of (_output_callback dev frame_count s))
             = buffer_underruns s
          /\ last_audio_time (state_of (_output_callback dev frame_count s))
             = time_time dev).
Proof.
  intros _ Hfc Hch.
  assert (Hreq : 0 <= frame_count * channels s * 2) by nia.
  rewrite (output_callback_run dev frame_count s Hreq).
  destruct (audio_queue s) as [|item rest].
  - eexists. split; [reflexivity|]. split.
    + rewrite len_bytes_repeat. lia.
    + intros item rest Hq. discriminate Hq.
  - eexists. split; [reflexivity|]. split.
    + now apply len_rendered.
    + intros item' rest' Hq. injection Hq as <- <-. repeat split.
Qed.

(** X6.  The queue is first in, first out: on a streaming sink whose queue is
    not full, [queue_audio] accepts an array by putting it last, and the next
    tick plays the item that is then first and leaves the others in order. *)
Theorem enqueue_then_tick_is_fifo
    (dev : Device) (frame_count : Z) (s : self) (a : ndarray)
    (item : PyObj) (rest : list PyObj) :
  is_streaming s = true ->
  full (audio_queue s) = false ->
  0 <= frame_count ->
  0 <= channels s ->
  audio_queue s ++ [queued_form s a] = item :: rest ->
  outcome_of (queue_audio (Nd a) s) = Ret true
  /\ _output_callback dev frame_count (state_of (queue_audio (Nd a) s))
     = (Ret (rendered item (frame_count * channels s * 2), paContinue),
        set_last_audio_time (time_time dev) (set_audio_queue rest s), []).
Proof.
  intros Hs Hfull Hfc Hch Hq.
  rewrite queue_audio_run, Hs, Hfull. cbn [negb]. split; [reflexivity|].
  unfold state_of. cbn [fst snd].
  rewrite output_callback_run by (cbn; nia).
  cbn [audio_queue set_audio_queue channels]. rewrite Hq.
  destruct s; reflexivity.
Qed.

Lemma warnings_repeat_dropped (n : nat) :
  warnings "Audio queue full, dropping frame" (repeat dropped n) = n.
Proof.
  unfold warnings. induction n as [|n IH]; [reflexivity|].
  cbn. now rewrite IH.
Qed.

Lemma set_audio_queue_same (s : self) : set_audio_queue (audio_queue s) s = s.
Proof. destruct s; reflexivity. Qed.

(** The exact run of the loop on a generator of arrays. *)
Lemma stream_loop_arrays (arrays : list ndarray) :
  forall s : self,
    is_streaming s = true ->
    stream_loop (generator_of (map Nd arrays)) s
    = (Ret tt,
       set_audio_queue
         (audio_queue s
          ++ firstn (Z.to_nat (maxsize - qsize (audio_queue s)))
                    (map (queued_form s) arrays)) s,
       repeat dropped
         (List.length arrays - Z.to_nat (maxsize - qsize (audio_queue s)))).
Proof.
  induction arrays as [|a arrays IH]; intros s Hs.
  - cbn. rewrite firstn_nil, app_nil_r, set_audio_queue_same. reflexivity.
  - cbn [map generator_of]. rewrite stream_loop_yield, Hs. cbn [negb].
    rewrite queue_audio_run, Hs. cbn [negb].
    destruct (full (audio_queue s)) eqn:Hfull; cbn [negb].
    + unfold full in Hfull. apply andb_true_iff in Hfull.
      destruct Hfull as [_ Hm]. apply Z.leb_le in Hm.
      unfold state_of, trace_of, outcome_of. cbn [fst snd].
      rewrite (IH s Hs). cbn [fst snd].
      replace (Z.to_nat (maxsize - qsize (audio_queue s))) with 0%nat by lia.
      cbn [firstn]. rewrite !Nat.sub_0_r. reflexivity.
    + unfold full in Hfull. apply andb_false_iff in Hfull.
      destruct Hfull as [Hm|Hm]; [discriminate Hm|]. apply Z.leb_gt in Hm.
      unfold state_of, trace_of, outcome_of. cbn [fst snd].
      set (s1 := set_audio_queue (audio_queue s ++ [queued_form s a]) s).
      assert (Hq1 : qsize (audio_queue s1) = qsize (audio_queue s) + 1).
      { unfold s1, qsize, len. cbn. rewrite length_app. cbn. lia. }
      assert (Hs1 : is_streaming s1 = true) by exact Hs.
      rewrite (IH s1 Hs1). cbn [fst snd].
      rewrite Hq1.
      replace (Z.to_nat (maxsize - qsize (audio_queue s)))
        with (S (Z.to_nat (maxsize - (qsize (audio_queue s) + 1)))) by lia.
      cbn [firstn map List.length Nat.sub app].
      f_equal. f_equal.
      unfold s1. cbn [audio_queue set_audio_queue].
      rewrite <- app_assoc. cbn [app].
      destruct s; reflexivity.
Qed.

(** X7.  On a streaming sink, [stream_audio_generator] given a generator of
    arrays never raises, queues the arrays in order until the queue holds 100
    items, and logs one "Audio queue full, dropping frame" warning for every
    array beyond that, which is lost. *)
Theorem stream_generator_fills_to_capacity (arrays : list ndarray) (s : self) :
  is_streaming s = true ->
  outcome_of (stream_audio_generator (generator_of (map Nd arrays)) s) = Ret tt
  /\ audio_queue (state_of (stream_audio_generator (generator_of (map Nd arrays)) s))
     = audio_queue s
       ++ firstn (Z.to_nat (maxsize - qsize (audio_queue s)))
                 (map (queued_form s) arrays)
  /\ warnings "Audio queue full, dropping frame"
       (trace_of (stream_audio_generator (generator_of (map Nd arrays)) s))
     = (List.length arrays - Z.to_nat (maxsize - qsize (audio_queue s)))%nat.
Proof.
  intros Hs. split; [apply stream_audio_generator_returns|].
  unfold stream_audio_generator, try_except.
  rewrite (stream_loop_arrays arrays s Hs).
  unfold state_of, trace_of. cbn [fst snd]. split.
  - reflexivity.
  - apply warnings_repeat_dropped.
Qed.

(** The exact run of the loop on a generator of byte strings. *)
Lemma stream_loop_bytes (chunks : list bytes) (s : self) :
  stream_loop (generator_of (map Bytes chunks)) s
  = (Ret tt, s,
     if is_streaming s then repeat invalid_type (List.length chunks) else []).
Proof.
  induction chunks as [|c chunks IH].
  - cbn. destruct (is_streaming s); reflexivity.
  - cbn [map generator_of]. rewrite stream_loop_yield.
    destruct (is_streaming s) eqn:Hs; cbn [negb]; [|reflexivity].
    rewrite queue_audio_run, Hs. cbn [negb].
    unfold state_of, trace_of, outcome_of. cbn [fst snd].
    rewrite IH. rewrite ?Hs. reflexivity.
Qed.

(** X8.  The chunks [_convert_to_streaming] yields are byte strings, and
    [queue_audio] only takes arrays: streaming them into a sink leaves the
    sink, its queue included, exactly as it was, and on a streaming sink logs
    one "Invalid audio data type" error per chunk. *)
Theorem converted_bytes_are_never_queued (audio : ndarray) (chunk_size : Z) (s : self) :
  stream_audio_generator
    (generator_of (map Bytes (fst (VoiceManager._convert_to_streaming audio chunk_size)))) s
  = (Ret tt, s,
     if is_streaming s
     then repeat invalid_type
            (List.length (fst (VoiceManager._convert_to_streaming audio chunk_size)))
     else []).
Proof.
  unfold stream_audio_generator, try_except.
  rewrite stream_loop_bytes. reflexivity.
Qed.

Lemma invocations_app (a b : Trace) :
  invocations (a ++ b) = invocations a ++ invocations b.
Proof.
  induction a as [|ev a IH]; [reflexivity|].
  destruct ev; cbn; rewrite ?IH; reflexivity.
Qed.

(** X9.  On a sink that is not streaming, [stream_audio_generator] still
    advances the generator once, before it looks at [is_streaming]: whatever
    the generator's body does up to its first [yield] is done (a synthesis,
    for a generator that starts with one), the value yielded is thrown away
    and the generator is not advanced again.  The call returns without
    raising and leaves the sink exactly as it was; it logs its own error
    only when that first step raises. *)
Theorem idle_sink_advances_generator_once (g : Generator) (s : self) :
  is_streaming s = false ->
  stream_audio_generator g s
  = (Ret tt, s,
     first_step g
     ++ match g with
        | GenRaise _ _ => [Log ERROR "Audio generator streaming failed"]
        | _ => []
        end)
  /\ invocations (trace_of (stream_audio_generator g s)) = invocations (first_step g).
Proof.
  intros Hs.
  assert (Hrun : stream_audio_generator g s
                 = (Ret tt, s,
                    first_step g
                    ++ match g with
                       | GenRaise _ _ => [Log ERROR "Audio generator streaming failed"]
                       | _ => []
                       end)).
  { unfold stream_audio_generator, try_except.
    destruct g as [ran|ran chunk rest|ran e].
    - cbn. now rewrite app_nil_r.
    - rewrite stream_loop_yield, Hs. cbn. now rewrite app_nil_r.
    - cbn. now rewrite app_nil_r. }
  split; [exact Hrun|].
  rewrite Hrun. unfold trace_of. cbn [snd].
  rewrite invocations_app.
  destruct g as [ran|ran chunk rest|ran e]; cbn; now rewrite app_nil_r.
Qed.

(** X10.  Once [stop_streaming] or [cleanup] has returned, [queue_audio]
    refuses every chunk: it returns [False], changes nothing and logs
    nothing. *)
Theorem no_chunk_accepted_after_stop (dev : Device) (s : self) (x : PyObj) :
  queue_audio x (state_of (stop_streaming dev s))
  = (Ret false, state_of (stop_streaming dev s), [])
  /\ queue_audio x (state_of (cleanup dev s))
     = (Ret false, state_of (cleanup dev s), []).
Proof.
  split.
  - rewrite queue_audio_run, stop_streaming_state.
    now rewrite (proj1 (stopped_idle dev s)).
  - rewrite queue_audio_run, cleanup_state. cbn [is_streaming set_audio_queue set_pyaudio_instance].
    now rewrite (proj1 (stopped_idle dev s)).
Qed.

Lemma cleanup_returns (dev : Device) (s : self) :
  outcome_of (cleanup dev s) = Ret tt.
Proof.
  unfold cleanup. unfold bind at 1.
  pose proof (stop_streaming_returns dev s) as Hret.
  destruct (stop_streaming dev s) as [[o s1] t1].
  unfold outcome_of in Hret. cbn in Hret. subst o.
  py_unfold.
  destruct (pyaudio_instance s1) as [p|]; cbn.
  - destruct (terminate dev) as [[]|]; reflexivity.
  - reflexivity.
Qed.

Lemma stopped_cleaned (dev : Device) (s : self) :
  stopped dev (set_audio_queue [] (set_pyaudio_instance None (stopped dev s)))
  = set_audio_queue [] (set_pyaudio_instance None (stopped dev s)).
Proof.
  destruct s as [sr ch cs fm q os ist pa st rec th cb lat un lt].
  unfold stopped; cbn.
  destruct (closes dev os) eqn:Eo; cbn; rewrite ?Eo; cbn.
  - destruct (closes dev ist) eqn:Ei; cbn; rewrite ?Ei; reflexivity.
  - reflexivity.
Qed.

(** X11.  [cleanup] never raises, even when the audio layer does, and a
    second [cleanup] leaves the sink exactly as the first left it. *)
Theorem cleanup_never_raises_and_is_idempotent (dev : Device) (s : self) :
  outcome_of (cleanup dev s) = Ret tt
  /\ outcome_of (cleanup dev (state_of (cleanup dev s))) = Ret tt
  /\ state_of (cleanup dev (state_of (cleanup dev s))) = state_of (cleanup dev s).
Proof.
  split; [apply cleanup_returns|]. split; [apply cleanup_returns|].
  rewrite !cleanup_state, stopped_cleaned.
  destruct (stopped dev s); reflexivity.
Qed.

(** X12.  [start_output_stream] never raises and never touches the queue.
    When it returns [True] the sink is streaming, holds the handle the device
    just opened, has a PyAudio instance and remembers the callback.  When it
    returns [False], either the streaming flag, the output handle and the
    worker thread are what they were, or the stream was opened and starting
    the worker thread raised: then the sink is left streaming, with the new
    handle and the thread that never started.  That second case happens
    whenever the thread start raises on a sink that has a PyAudio instance
    and is given no callback: [queue_audio] then accepts chunks although the
    start was reported as failed. *)
Theorem start_output_stream_outcome (dev : Device) (callback : option nat) (s : self) :
  exists started : bool,
    outcome_of (start_output_stream dev callback s) = Ret started
    /\ (started = true ->
        is_streaming (state_of (start_output_stream dev callback s)) = true
        /\ (exists h, open_stream dev = Ret h
                      /\ output_stream (state_of (start_output_stream dev callback s))
                         = Some h)
        /\ pyaudio_instance (state_of (start_output_stream dev callback s)) <> None
        /\ callback_function (state_of (start_output_stream dev callback s)) = callback)
    /\ (started = false ->
        (is_streaming (state_of (start_output_stream dev callback s)) = is_streaming s
         /\ output_stream (state_of (start_output_stream dev callback s)) = output_stream s
         /\ stream_thread (state_of (start_output_stream dev callback s)) = stream_thread s)
        \/ (callback = None
            /\ (exists e, start_thread dev (new_thread dev) = Raise e)
            /\ (exists h, open_stream dev = Ret h
                          /\ output_stream (state_of (start_output_stream dev callback s))
                             = Some h)
            /\ is_streaming (state_of (start_output_stream dev callback s)) = true
            /\ stream_thread (state_of (start_output_stream dev callback s))
               = Some (new_thread dev)))
    /\ (forall p h e,
          callback = None ->
          pyaudio_instance s = Some p ->
          open_stream dev = Ret h ->
          start_thread dev (new_thread dev) = Raise e ->
          started = false
          /\ is_streaming (state_of (start_output_stream dev callback s)) = true
          /\ forall a,
               full (audio_queue s) = false ->
               outcome_of (queue_audio (Nd a) (state_of (start_output_stream dev callback s)))
               = Ret true)
    /\ audio_queue (state_of (start_output_stream dev callback s)) = audio_queue s.
Proof.
  destruct s as [sr ch cs fm q os ist pa st rec th cb' lat un lt].
  unfold start_output_stream, initialize. py_unfold. simpl.
  py_cases; eexists; (split; [reflexivity|]);
    (split; [intros; try discriminate; repeat split; eauto; discriminate|]);
    (split; [intros; try discriminate;
             first [ left; repeat split; reflexivity
                   | right; repeat split; eauto ]|]);
    (split; [|reflexivity]);
    intros p0 h0 e0 Hcb Hpa Hopen Hstart; try discriminate; try congruence;
    cbn in *;
    (split; [reflexivity|]); (split; [reflexivity|]);
    intros arr Hfull; rewrite queue_audio_run; cbn; cbn in Hfull; rewrite Hfull; reflexivity.
Qed.

(** X13.  As long as no chunk was played ([last_audio_time] is 0) the worker
    measures nothing, so a latency of 0 stays 0, and [adjust_latency] with the
    default target of 200 ms doubles the chunk size, up to 4096, without
    changing that. *)
Theorem unplayed_sink_keeps_doubling (dev : Device) (s : self) :
  last_audio_time s = 0%float ->
  latency_ms s = 0%float ->
  state_of (_stream_worker_iteration dev s) = s
  /\ state_of (adjust_latency default_target_latency_ms s)
     = set_chunk_size (Z.min 4096 (chunk_size s * 2)) s
  /\ last_audio_time (state_of (adjust_latency default_target_latency_ms s)) = 0%float
  /\ latency_ms (state_of (adjust_latency default_target_latency_ms s)) = 0%float.
Proof.
  intros Hlast Hlat.
  rewrite worker_iteration_state, adjust_latency_state, Hlast, Hlat.
  cbn. repeat split; assumption.
Qed.
End SinkMore.

(* ===================================================================== *)
(** ** More of the voice manager                                           *)
(* ===================================================================== *)

Section DictFacts.
Variables (K V : Type) (eqb : K -> K -> bool).
Hypothesis eqb_spec : forall a b, eqb a b = true <-> a = b.

Lemma eqb_same (k : K) : eqb k k = true.
Proof. now apply eqb_spec. Qed.

Lemma eqb_other (a b : K) : a <> b -> eqb a b = false.
Proof.
  intros Hne. destruct (eqb a b) eqn:E; [|reflexivity].
  apply eqb_spec in E. contradiction.
Qed.

Lemma dict_get_set_same (k : K) (v : V) (d : list (K * V)) :
  dict_get eqb k (dict_set eqb k v d) = Some v.
Proof.
  induction d as [|[k' v'] d IH]; cbn.
  - now rewrite eqb_same.
  - destruct (eqb k k') eqn:E; cbn.
    + now rewrite eqb_same.
    + now rewrite E.
Qed.

Lemma dict_get_set_other (k k' : K) (v : V) (d : list (K * V)) :
  k' <> k ->
  dict_get eqb k' (dict_set eqb k v d) = dict_get eqb k' d.
Proof.
  intros Hne. induction d as [|[k0 v0] d IH]; cbn.
  - now rewrite (eqb_other k' k Hne).
  - destruct (eqb k k0) eqn:E; cbn.
    + apply eqb_spec in E. subst k0.
      now rewrite (eqb_other k' k Hne).
    + destruct (eqb k' k0); [reflexivity | exact IH].
Qed.

Lemma dict_get_In (k : K) (d : list (K * V)) :
  dict_get eqb k d = None <-> ~ In k (map fst d).
Proof.
  induction d as [|[k0 v0] d IH]; cbn.
  - split; [intros _ []|reflexivity].
  - destruct (eqb k k0) eqn:E.
    + apply eqb_spec in E. subst k0. split; [discriminate|]. intros Hn. exfalso. auto.
    + rewrite IH. split.
      * intros Hn [Heq|Hin]; [|contradiction]. subst k0.
        rewrite eqb_same in E. discriminate.
      * intros Hn Hin. apply Hn. now right.
Qed.

(** Writing a key keeps the order of the keys: a new key goes last, a key
    already there stays where it is. *)
Lemma keys_dict_set (k : K) (v : V) (d : list (K * V)) :
  map fst (dict_set eqb k v d)
  = if dict_mem eqb k d then map fst d else map fst d ++ [k].
Proof.
  unfold dict_mem. induction d as [|[k0 v0] d IH]; cbn.
  - reflexivity.
  - destruct (eqb k k0) eqn:E; cbn.
    + apply eqb_spec in E. now subst k0.
    + rewrite IH. destruct (dict_get eqb k d); reflexivity.
Qed.

Lemma distinct_keys_dict_set (k : K) (v : V) (d : list (K * V)) :
  VoiceManager.distinct_keys d -> VoiceManager.distinct_keys (dict_set eqb k v d).
Proof.
  unfold VoiceManager.distinct_keys. intros Hd. rewrite keys_dict_set.
  unfold dict_mem. destruct (dict_get eqb k d) eqn:E; [exact Hd|].
  apply dict_get_In in E.
  apply NoDup_app; [exact Hd | constructor; [intros [] | constructor] | ].
  intros x Hx [<-|[]]. contradiction.
Qed.

End DictFacts.

Lemma VoiceEngine_eqb_spec (a b : Config.VoiceEngine) :
  Config.VoiceEngine_eqb a b = true <-> a = b.
Proof. destruct a, b; cbn; split; intros E; try reflexivity; discriminate E. Qed.

Section ManagerMore.
Context `{Numpy}.
Import Config VoiceManager.

(** X15.  [synthesize] never raises, leaves the manager exactly as it was and
    calls at most one engine method, for every request. *)
Theorem synthesize_never_raises_nor_mutates
    (m : self) (text lang : string) (name : option string) (mode : SynthesisMode) :
  exists r t,
    synthesize text name lang mode m = (Ret r, m, t)
    /\ (List.length (invocations t) <= 1)%nat.
Proof.
  pose proof (synthesize_invokes_at_most_once text name lang mode m) as Hinv.
  rewrite synthesize_is_body in *.
  destruct (synthesize_body_returns text name lang mode m) as [r [t E]].
  rewrite E in Hinv. exists r, t. split; [exact E | exact Hinv].
Qed.

Lemma select_none_without_engines (m : self) (mode : SynthesisMode) :
  engines m = [] -> current_engine m = None -> _select_engine m mode = None.
Proof.
  intros He Hc. unfold _select_engine. rewrite He, Hc.
  destruct mode; reflexivity.
Qed.

(** What [synthesize] does on a manager that is not initialized. *)
Lemma synthesize_uninitialized_run
    (m : self) (text lang : string) (name : option string) (mode : SynthesisMode) :
  is_initialized m = false ->
  synthesize text name lang mode m
  = (Ret None, m, [Log ERROR "Voice Manager not initialized"]).
Proof.
  intros Hinit. rewrite synthesize_is_body. unfold synthesize_body. py_unfold.
  rewrite Hinit. reflexivity.
Qed.

(** X16.  On a manager that is not initialized, and on an initialized one
    without any engine, [synthesize] returns [None], calls no engine and logs
    the one error that says why. *)
Theorem synthesize_refuses_without_engine
    (m : self) (text lang : string) (name : option string) (mode : SynthesisMode) :
  (is_initialized m = false ->
   synthesize text name lang mode m
   = (Ret None, m, [Log ERROR "Voice Manager not initialized"]))
  /\ (is_initialized m = true ->
      engines m = [] ->
      current_engine m = None ->
      synthesize text name lang mode m
      = (Ret None, m, [Log ERROR "No suitable engine available"])).
Proof.
  split.
  - apply synthesize_uninitialized_run.
  - intros Hinit He Hc. rewrite synthesize_is_body. unfold synthesize_body. py_unfold.
    rewrite Hinit, (select_none_without_engines m mode He Hc). reflexivity.
Qed.

(** With an engine registered, selection finds one in every mode. *)
Lemma select_some_with_engines (m : self) (mode : SynthesisMode) :
  engines m <> [] -> exists e, _select_engine m mode = Some e.
Proof.
  intros Hne. unfold _select_engine, dict_mem.
  destruct (match mode with REALTIME => true | _ => false end); cbn.
  - destruct (dict_get VoiceEngine_eqb REALTIME_TTS (engines m)) as [rt|] eqn:Hrt.
    + eexists; reflexivity.
    + destruct (match mode with BATCH | STREAMING => true | _ => false end
                && is_some (current_engine m)) eqn:Hc.
      * apply andb_true_iff in Hc. destruct Hc as [_ Hc].
        destruct (current_engine m); [eexists; reflexivity | discriminate].
      * destruct (engines m) as [|[k v] d]; [contradiction|]. cbn. eexists; reflexivity.
  - destruct (match mode with BATCH | STREAMING => true | _ => false end
              && is_some (current_engine m)) eqn:Hc.
    + apply andb_true_iff in Hc. destruct Hc as [_ Hc].
      destruct (current_engine m); [eexists; reflexivity | discriminate].
    + destruct (engines m) as [|[k v] d]; [contradiction|]. cbn. eexists; reflexivity.
Qed.

Lemma load_default_profiles_run (m : self) :
  _load_default_profiles m
  = (Ret tt,
     set_current_profile_attr
       (Some cute_girl)
       (set_voice_profiles
          (dict_set String.eqb "energetic_girl" energetic_girl
             (dict_set String.eqb "asmr_girl" asmr_girl
                (dict_set String.eqb "cute_girl" cute_girl (voice_profiles m)))) m),
     [Log INFO "Loaded default voice profiles"]).
Proof.
  unfold _load_default_profiles. py_unfold. cbn.
  rewrite (dict_get_set_other _ _ String.eqb String.eqb_eq) by discriminate.
  rewrite (dict_get_set_other _ _ String.eqb String.eqb_eq) by discriminate.
  rewrite (dict_get_set_same _ _ String.eqb String.eqb_eq).
  destruct m; reflexivity.
Qed.

Lemma initialize_run (settings : Settings) (b : Backends) (m : self) :
  exists ok m' t,
    initialize settings b m = (Ret ok, m', t)
    /\ is_initialized m' = ok
    /\ ok = (0 <? len (engines m'))
    /\ current_profile m' = Some cute_girl
    /\ voice_profiles m'
       = dict_set String.eqb "energetic_girl" energetic_girl
           (dict_set String.eqb "asmr_girl" asmr_girl
              (dict_set String.eqb "cute_girl" cute_girl (voice_profiles m))).
Proof.
  destruct settings as [primary fallback sr cs ch].
  destruct b as [xe xl ce cl re rl].
  destruct m as [es cur fb vp cp init].
  unfold initialize, _load_default_profiles. py_unfold.
  destruct primary, fallback, xl, cl, rl; cbn;
    repeat match goal with
           | |- context [dict_mem ?e ?k ?d] => destruct (dict_mem e k d); cbn
           | |- context [is_some ?c] => destruct c; cbn
           | |- context [0 <? ?x] => destruct (0 <? x) eqn:?; cbn
           end;
    do 3 eexists; (split; [reflexivity|]); cbn;
    (split; [reflexivity|]);
    (split; [auto|]);
    (split; [|reflexivity]);
    rewrite (dict_get_set_other _ _ String.eqb String.eqb_eq) by discriminate;
    rewrite (dict_get_set_other _ _ String.eqb String.eqb_eq) by discriminate;
    apply (dict_get_set_same _ _ String.eqb String.eqb_eq).
Qed.

(** X17.  [initialize] never raises; it returns the value it leaves in
    [is_initialized] and makes [cute_girl] the current profile.  When it
    returns [True] engine selection finds an engine in every mode; when it
    returns [False] every [synthesize] is refused. *)
Theorem initialize_then_every_mode_has_an_engine
    (settings : Settings) (b : Backends) (m : self) :
  exists ok : bool,
    outcome_of (initialize settings b m) = Ret ok
    /\ is_initialized (state_of (initialize settings b m)) = ok
    /\ current_profile (state_of (initialize settings b m)) = Some cute_girl
    /\ (ok = true ->
        forall mode, exists e,
          _select_engine (state_of (initialize settings b m)) mode = Some e)
    /\ (ok = false ->
        forall text name lang mode,
          synthesize text name lang mode (state_of (initialize settings b m))
          = (Ret None, state_of (initialize settings b m),
             [Log ERROR "Voice Manager not initialized"])).
Proof.
  destruct (initialize_run settings b m) as [ok [m' [t [Hrun [Hinit [Hok [Hcur _]]]]]]].
  rewrite Hrun. unfold outcome_of, state_of. cbn [fst snd].
  exists ok. split; [reflexivity|]. split; [exact Hinit|]. split; [exact Hcur|]. split.
  - intros -> mode. apply select_some_with_engines.
    intros Hnil. rewrite Hnil in Hok. discriminate Hok.
  - intros -> text name lang mode.
    apply synthesize_uninitialized_run. exact Hinit.
Qed.

(** X18.  [initialize] on a new manager succeeds exactly when one of the
    backends it tries loads; the engines are registered in the order XTTS-v2,
    ChatTTS, realtime; the current engine is XTTS-v2 if it is the primary and
    loads, else ChatTTS if it is the primary and loads, else the realtime
    engine if it initializes, else none (a ChatTTS that is only the fallback
    never becomes current); the fallback engine is the loaded engine of the
    fallback setting; the profiles are the three defaults, in order. *)
Theorem initialize_of_new_manager (settings : Settings) (b : Backends) :
  let xtts := VoiceEngine_eqb (primary_voice_engine settings) XTTS_V2
              && xtts_load_model b in
  let chattts := (VoiceEngine_eqb (primary_voice_engine settings) CHATTTS
                  || VoiceEngine_eqb (fallback_voice_engine settings) CHATTTS)
                 && chattts_load_model b in
  let m' := state_of (initialize settings b __init__) in
  outcome_of (initialize settings b __init__)
  = Ret (xtts || chattts || realtime_initialize b)
  /\ get_available_engines m'
     = (if xtts then [XTTS_V2] else [])
       ++ (if chattts then [CHATTTS] else [])
       ++ (if realtime_initialize b then [REALTIME_TTS] else [])
  /\ option_map Engine.id (current_engine m')
     = (if xtts then Some (Engine.id (xtts_engine b))
        else if chattts && VoiceEngine_eqb (primary_voice_engine settings) CHATTTS
             then Some (Engine.id (chattts_engine b))
             else if realtime_initialize b
                  then Some (Engine.id (realtime_engine b))
                  else None)
  /\ option_map Engine.id (fallback_engine m')
     = option_map Engine.id
         (dict_get VoiceEngine_eqb (fallback_voice_engine settings) (engines m'))
  /\ get_available_profiles m' = ["cute_girl"; "asmr_girl"; "energetic_girl"]%string.
Proof.
  destruct settings as [primary fallback sr cs ch].
  destruct b as [xe xl ce cl re rl].
  destruct primary, fallback, xl, cl, rl; cbn; repeat split.
Qed.
End ManagerMore.

Section ProfileFacts.
Context `{Numpy}.
Import Config VoiceManager.

Lemma add_voice_profile_run (p : VoiceProfile) (m : self) :
  add_voice_profile p m
  = (Ret true,
     set_voice_profiles (dict_set String.eqb (name p) p (voice_profiles m)) m,
     [Log INFO "Added voice profile"]).
Proof. reflexivity. Qed.

Lemma get_voice_profile_known (m : self) (n : string) (p : VoiceProfile) :
  n <> ""%string ->
  dict_get String.eqb n (voice_profiles m) = Some p ->
  _get_voice_profile m (Some n) = Some p.
Proof.
  intros Hn Hget. unfold _get_voice_profile, str_truthy, dict_mem. cbn [dflt].
  rewrite Hget. apply String.eqb_neq in Hn. rewrite Hn. reflexivity.
Qed.

(** X19.  [add_voice_profile] succeeds and leaves the current profile alone.
    A profile added under a non-empty name is the one a lookup by that name
    returns, and lookups of the other registered names return what they did.
    A profile added under the empty name cannot be looked up by it: the
    lookup of the empty name falls back to the substitute. *)
Theorem added_profile_is_found_by_name (m : self) (p : VoiceProfile) :
  outcome_of (add_voice_profile p m) = Ret true
  /\ current_profile (state_of (add_voice_profile p m)) = current_profile m
  /\ (name p <> ""%string ->
      _get_voice_profile (state_of (add_voice_profile p m)) (Some (name p)) = Some p)
  /\ (forall n q,
        n <> name p ->
        n <> ""%string ->
        dict_get String.eqb n (voice_profiles m) = Some q ->
        _get_voice_profile (state_of (add_voice_profile p m)) (Some n) = Some q)
  /\ (name p = ""%string ->
      _get_voice_profile (state_of (add_voice_profile p m)) (Some ""%string)
      = substitute_profile (state_of (add_voice_profile p m))).
Proof.
  rewrite add_voice_profile_run. unfold outcome_of, state_of. cbn [fst snd].
  split; [reflexivity|]. split; [reflexivity|]. split; [|split].
  - intros Hn. apply get_voice_profile_known; [exact Hn|]. cbn.
    apply (dict_get_set_same _ _ String.eqb String.eqb_eq).
  - intros n q Hne Hn Hget. apply get_voice_profile_known; [exact Hn|]. cbn.
    rewrite (dict_get_set_other _ _ String.eqb String.eqb_eq) by exact Hne.
    exact Hget.
  - intros _. unfold _get_voice_profile, substitute_profile. cbn.
    destruct (current_profile m) as [c|]; [reflexivity|]. cbn.
    destruct (dict_set String.eqb (name p) p (voice_profiles m)) as [|[k v] d];
      reflexivity.
Qed.

Lemma set_current_profile_run (n : string) (m : self) :
  set_current_profile n m
  = match dict_get String.eqb n (voice_profiles m) with
    | Some p => (Ret true, set_current_profile_attr (Some p) m,
                 [Log INFO "Switched to voice profile"])
    | None => (Ret false, m, [Log ERROR "Voice profile not found"])
    end.
Proof.
  unfold set_current_profile, dict_mem. py_unfold.
  destruct (dict_get String.eqb n (voice_profiles m)); reflexivity.
Qed.

(** X20.  [set_current_profile] of a registered name returns [True] and makes
    that profile the current one, so every later lookup of an absent or
    unknown name returns it; for a name that is not registered it returns
    [False] and changes nothing. *)
Theorem set_current_profile_outcome (m : self) (n : string) :
  (forall p,
     dict_get String.eqb n (voice_profiles m) = Some p ->
     outcome_of (set_current_profile n m) = Ret true
     /\ state_of (set_current_profile n m) = set_current_profile_attr (Some p) m
     /\ (forall unknown,
           (forall k, unknown = Some k ->
                      dict_mem String.eqb k (voice_profiles m) = false) ->
           _get_voice_profile (state_of (set_current_profile n m)) unknown = Some p))
  /\ (dict_get String.eqb n (voice_profiles m) = None ->
      set_current_profile n m = (Ret false, m, [Log ERROR "Voice profile not found"])).
Proof.
  rewrite set_current_profile_run. split.
  - intros p Hget. rewrite Hget. unfold outcome_of, state_of. cbn [fst snd].
    split; [reflexivity|]. split; [reflexivity|].
    intros unknown Hunknown.
    rewrite get_voice_profile_unknown; [reflexivity|].
    intros k Hk. cbn. now apply Hunknown.
  - intros Hget. rewrite Hget. reflexivity.
Qed.

(** X21.  Replacing the profile registered under the current profile's name
    does not replace the current profile: a lookup by that name returns the
    new profile, a lookup without a name still returns the old one. *)
Theorem replaced_profile_leaves_current_stale
    (m : self) (n : string) (old new : VoiceProfile) :
  n <> ""%string ->
  dict_get String.eqb n (voice_profiles m) = Some old ->
  name new = n ->
  _get_voice_profile
    (state_of (add_voice_profile new (state_of (set_current_profile n m)))) (Some n)
  = Some new
  /\ _get_voice_profile
       (state_of (add_voice_profile new (state_of (set_current_profile n m)))) None
     = Some old
  /\ current_profile
       (state_of (add_voice_profile new (state_of (set_current_profile n m))))
     = Some old.
Proof.
  intros Hn Hget Hname.
  rewrite set_current_profile_run, Hget. unfold state_of at 2 4 6. cbn [fst snd].
  rewrite add_voice_profile_run. unfold state_of. cbn [fst snd].
  split; [|split].
  - apply get_voice_profile_known; [exact Hn|]. cbn. rewrite Hname.
    apply (dict_get_set_same _ _ String.eqb String.eqb_eq).
  - reflexivity.
  - reflexivity.
Qed.

(** X22.  [get_available_profiles] lists the names in insertion order:
    adding a profile under a new name puts the name last, adding one under a
    registered name leaves the list as it was; and names stay pairwise
    distinct. *)
Theorem profile_names_keep_insertion_order (m : self) (p : VoiceProfile) :
  get_available_profiles (state_of (add_voice_profile p m))
  = (if dict_mem String.eqb (name p) (voice_profiles m)
     then get_available_profiles m
     else get_available_profiles m ++ [name p])
  /\ (distinct_keys (voice_profiles m) ->
      distinct_keys (voice_profiles (state_of (add_voice_profile p m)))).
Proof.
  rewrite add_voice_profile_run. unfold state_of, get_available_profiles.
  cbn [fst snd voice_profiles set_voice_profiles]. split.
  - apply (keys_dict_set _ _ String.eqb String.eqb_eq).
  - apply (distinct_keys_dict_set _ _ String.eqb String.eqb_eq).
Qed.

Lemma switch_engine_run (k : VoiceEngine) (m : self) :
  switch_engine k m
  = match dict_get VoiceEngine_eqb k (engines m) with
    | Some e => (Ret true, set_current_engine (Some e) m, [Log INFO "Switched to engine"])
    | None => (Ret false, m, [Log ERROR "Engine not found"])
    end.
Proof.
  unfold switch_engine, dict_mem. py_unfold.
  destruct (dict_get VoiceEngine_eqb k (engines m)); reflexivity.
Qed.

(** X23.  [switch_engine] to a registered key returns [True] and makes that
    engine the one selected for batch and streaming requests, while realtime
    requests are selected as before; for a key that is not registered it
    returns [False] and changes nothing. *)
Theorem switch_engine_outcome (m : self) (k : VoiceEngine) :
  (forall e,
     dict_get VoiceEngine_eqb k (engines m) = Some e ->
     outcome_of (switch_engine k m) = Ret true
     /\ state_of (switch_engine k m) = set_current_engine (Some e) m
     /\ _select_engine (state_of (switch_engine k m)) BATCH = Some e
     /\ _select_engine (state_of (switch_engine k m)) STREAMING = Some e
     /\ _select_engine (state_of (switch_engine k m)) REALTIME
        = _select_engine m REALTIME)
  /\ (dict_get VoiceEngine_eqb k (engines m) = None ->
      switch_engine k m = (Ret false, m, [Log ERROR "Engine not found"])).
Proof.
  rewrite switch_engine_run. split.
  - intros e Hget. rewrite Hget. unfold outcome_of, state_of. cbn [fst snd].
    repeat split.
  - intros Hget. rewrite Hget. reflexivity.
Qed.
End ProfileFacts.

Section CleanupFacts.
Context `{Numpy}.
Import Config VoiceManager.



(** X25.  With a chunk size of zero or less [_convert_to_streaming] yields no
    chunk at all, whatever the audio: the error is logged for zero, and
    nothing is logged for a negative size. *)
Theorem convert_to_streaming_without_chunks (audio : ndarray) (chunk_size : Z) :
  chunk_size <= 0 ->
  _convert_to_streaming audio chunk_size
  = ([], if chunk_size =? 0 then [Log ERROR "Audio conversion failed"] else []).
Proof.
  intros Hcs. unfold _convert_to_streaming, py_range.
  destruct (Z.eqb_spec chunk_size 0) as [->|Hne].
  - reflexivity.
  - destruct (Z.eqb_spec (chunk_size * 2) 0) as [?|_]; [lia|].
    destruct (Z.ltb_spec 0 (chunk_size * 2)) as [?|_]; [lia|].
    pose proof (len_nonneg (np_tobytes (np_scale_int16 audio))) as Hl.
    assert (Hq : (0 - len (np_tobytes (np_scale_int16 audio)) - chunk_size * 2 - 1)
                 / - (chunk_size * 2) < 1)
      by (apply Z.div_lt_upper_bound; lia).
    replace (Z.to_nat ((0 - len (np_tobytes (np_scale_int16 audio)) - chunk_size * 2 - 1)
                       / - (chunk_size * 2))) with 0%nat by lia.
    reflexivity.
Qed.

(** X26.  For a positive chunk size [_convert_to_streaming] yields as many
    chunks as the encoded buffer has started blocks of [chunk_size * 2] bytes
    (the length divided by the block size, rounded up), and none for an
    empty buffer. *)
Theorem convert_to_streaming_chunk_count (audio : ndarray) (chunk_size : Z) :
  0 < chunk_size ->
  len (fst (_convert_to_streaming audio chunk_size))
  = (len (np_tobytes (np_scale_int16 audio)) + chunk_size * 2 - 1) / (chunk_size * 2)
  /\ (len (np_tobytes (np_scale_int16 audio)) = 0 ->
      fst (_convert_to_streaming audio chunk_size) = []).
Proof.
  intros Hcs. unfold _convert_to_streaming, py_range.
  destruct (Z.eqb_spec (chunk_size * 2) 0) as [?|_]; [lia|].
  destruct (Z.ltb_spec 0 (chunk_size * 2)) as [_|?]; [|lia].
  cbn [fst]. pose proof (len_nonneg (np_tobytes (np_scale_int16 audio))) as Hl.
  split.
  - unfold len at 1. rewrite length_map, length_range_from.
    rewrite Z.sub_0_r. apply Z2Nat.id. apply Z.div_pos; lia.
  - intros H0. rewrite H0.
    replace ((0 - 0 + chunk_size * 2 - 1) / (chunk_size * 2)) with 0; [reflexivity|].
    symmetry. apply Z.div_small. lia.
Qed.
End CleanupFacts.

Section EngineChunks.
Variable Sample : Type.
Import Engines.

Lemma chunks_of_map_Some (l : list (list Sample)) : chunks_of (map Some l) = l.
Proof. induction l as [|c l IH]; cbn; [reflexivity | now rewrite IH]. Qed.

(** X27.  When synthesis returns a buffer and the chunk size is positive, the
    streaming generators of the XTTS and ChatTTS engines yield the same
    values: only chunks, never [None], which concatenate to the buffer, each
    non-empty and at most [chunk_size] long, and all but the last exactly
    [chunk_size] long. *)
Theorem engine_streaming_slices_the_buffer (a : list Sample) (chunk_size : Z) :
  0 < chunk_size ->
  xtts_synthesize_streaming (Ret (Some a)) chunk_size
  = chattts_synthesize_streaming (Ret (Some a)) chunk_size
  /\ snd (xtts_synthesize_streaming (Ret (Some a)) chunk_size) = []
  /\ ~ In None (fst (xtts_synthesize_streaming (Ret (Some a)) chunk_size))
  /\ List.concat (chunks_of (fst (xtts_synthesize_streaming (Ret (Some a)) chunk_size)))
     = a
  /\ (forall c,
        In c (chunks_of (fst (xtts_synthesize_streaming (Ret (Some a)) chunk_size))) ->
        0 < len c <= chunk_size)
  /\ (forall (k : nat) c,
        nth_error (chunks_of (fst (xtts_synthesize_streaming (Ret (Some a)) chunk_size))) k
        = Some c ->
        (S k < List.length
                 (chunks_of (fst (xtts_synthesize_streaming (Ret (Some a)) chunk_size))))%nat ->
        len c = chunk_size).
Proof.
  intros Hcs.
  pose proof (len_nonneg a) as Hlen.
  destruct (range_count_covers (len a) chunk_size Hlen Hcs) as [Hcover Htight].
  set (n := Z.to_nat ((len a - 0 + chunk_size - 1) / chunk_size)) in *.
  assert (Hs : sliced a chunk_size
               = Some (map (fun i => slice a i (i + chunk_size))
                           (range_from n 0 chunk_size))).
  { unfold sliced, py_range.
    destruct (Z.eqb_spec chunk_size 0) as [?|_]; [lia|].
    destruct (Z.ltb_spec 0 chunk_size) as [_|?]; [|lia].
    reflexivity. }
  unfold xtts_synthesize_streaming, chattts_synthesize_streaming. rewrite Hs.
  cbn [fst snd]. rewrite chunks_of_map_Some.
  split; [reflexivity|]. split; [reflexivity|]. split; [|split; [|split]].
  - intros Hin. apply in_map_iff in Hin. destruct Hin as [c [Hc _]]. discriminate Hc.
  - rewrite (concat_slices _ a chunk_size Hcs n 0) by lia. reflexivity.
  - intros c Hc. apply in_map_iff in Hc. destruct Hc as [i [<- Hin]].
    apply In_range_from in Hin. destruct Hin as [k [Hk ->]].
    rewrite len_slice_nonneg by nia. nia.
  - intros k c Hk Hlast.
    rewrite nth_error_map in Hk.
    rewrite length_map, length_range_from in Hlast.
    rewrite nth_error_range_from in Hk by lia.
    cbn in Hk. injection Hk as <-.
    rewrite len_slice_nonneg by nia. nia.
Qed.

(** X28.  When synthesis returns [None] the XTTS generator yields nothing and
    the ChatTTS generator yields a single [None].  With a chunk size of zero
    both yield a single [None]; with a negative chunk size both yield
    nothing. *)
Theorem engine_streaming_failures (chunk_size : Z) :
  xtts_synthesize_streaming (Sample := Sample) (Ret None) chunk_size = ([], [])
  /\ chattts_synthesize_streaming (Sample := Sample) (Ret None) chunk_size = ([None], [])
  /\ (forall a : list Sample,
        fst (xtts_synthesize_streaming (Ret (Some a)) 0) = [None]
        /\ fst (chattts_synthesize_streaming (Ret (Some a)) 0) = [None])
  /\ (forall (a : list Sample),
        chunk_size < 0 ->
        fst (xtts_synthesize_streaming (Ret (Some a)) chunk_size) = []
        /\ fst (chattts_synthesize_streaming (Ret (Some a)) chunk_size) = []).
Proof.
  split; [reflexivity|]. split; [reflexivity|]. split.
  - intros a. split; reflexivity.
  - intros a Hcs.
    assert (Hs : sliced a chunk_size = Some []).
    { unfold sliced, py_range.
      destruct (Z.eqb_spec chunk_size 0) as [?|_]; [lia|].
      destruct (Z.ltb_spec 0 chunk_size) as [?|_]; [lia|].
      pose proof (len_nonneg a) as Hl.
      assert (Hq : (0 - len a - chunk_size - 1) / - chunk_size < 1)
        by (apply Z.div_lt_upper_bound; lia).
      replace (Z.to_nat ((0 - len a - chunk_size - 1) / - chunk_size)) with 0%nat by lia.
      reflexivity. }
    unfold xtts_synthesize_streaming, chattts_synthesize_streaming.
    rewrite Hs. split; reflexivity.
Qed.
End EngineChunks.

(* ===================================================================== *)
(** ** Invariants of the sink over every sequence of calls                 *)
(* ===================================================================== *)

Section SinkInvariants.
Context `{Numpy}.
Import AudioStreamer.

(** X2.  Whatever calls are made on a sink, in whatever order and whatever
    the audio layer answers: if every sink that says it streams has an
    output handle and every sink that says it records has an input handle,
    this is still so afterwards.  (It is so for a new sink.) *)
Theorem streaming_flag_implies_open_handle (calls : list (Device * Call)) (s : self) :
  flags_have_handles s ->
  flags_have_handles (after_calls calls s).
Proof.
  apply (after_calls_preserves flags_have_handles).
  intros dev c s0. apply after_call_flags.
Qed.

(** X3.  No call moves the chunk size out of the range 256..4096: if it is
    in that range, it is in that range after any sequence of calls. *)
Theorem chunk_size_stays_in_range (calls : list (Device * Call)) (s : self) :
  256 <= chunk_size s <= 4096 ->
  256 <= chunk_size (after_calls calls s) <= 4096.
Proof.
  apply (after_calls_preserves (fun s => 256 <= chunk_size s <= 4096)).
  intros dev c s0. apply after_call_chunk_range.
Qed.

(** X4.  The underrun counter is never reset or decreased by any call, not
    even by [stop_streaming] or [cleanup]. *)
Theorem underruns_never_decrease (calls : list (Device * Call)) (s : self) :
  buffer_underruns s <= buffer_underruns (after_calls calls s).
Proof.
  apply (after_calls_preserves (fun s' => buffer_underruns s <= buffer_underruns s')).
  - intros dev c s0 Hs0.
    pose proof (after_call_underruns dev c s0) as Hstep. lia.
  - lia.
Qed.

(** X14.  With PyAudio imported, [_input_callback] hands the input data
    back with [paContinue] whether a callback is set or not and also when the
    callback raises: the exception is caught and logged.  It writes no
    attribute of the sink itself: the sink is left as the callback left it,
    and untouched when no callback is set.  With PyAudio missing it raises
    [AttributeError], from the [try] block and again from the handler. *)
Theorem input_callback_passes_data_through
    (dev : Device) (callback : bytes -> Py self unit) (in_data : bytes) (s : self) :
  (pyaudio_imported dev = true ->
   outcome_of (_input_callback dev callback in_data s) = Ret (in_data, paContinue)
   /\ state_of (_input_callback dev callback in_data s)
      = state_of (callback_run callback in_data s)
   /\ trace_of (_input_callback dev callback in_data s)
      = trace_of (callback_run callback in_data s)
        ++ match outcome_of (callback_run callback in_data s) with
           | Ret _ => []
           | Raise _ => [input_callback_error]
           end
   /\ (callback_function s = None ->
       _input_callback dev callback in_data s = (Ret (in_data, paContinue), s, [])))
  /\ (pyaudio_imported dev = false ->
      outcome_of (_input_callback dev callback in_data s) = Raise AttributeError).
Proof.
  rewrite input_callback_run. split.
  - intros ->. repeat split.
    intros Hcb. unfold callback_run. rewrite Hcb. reflexivity.
  - intros ->. reflexivity.
Qed.

End SinkInvariants.

(* ===================================================================== *)
(** ** The properties above at concrete inputs                             *)
(* ===================================================================== *)

(** X1, along the session on a new sink. *)
Lemma queue_never_exceeds_capacity_witness :
  AudioStreamer.qsize
    (AudioStreamer.audio_queue (AudioStreamer.after_calls Examples.session Examples.fresh_sink))
  <= AudioStreamer.maxsize.
Proof.
  apply (@queue_never_exceeds_capacity bytes_numpy Examples.session Examples.fresh_sink).
  vm_compute. discriminate.
Defined.

(** X2, along the session on a new sink. *)
Lemma streaming_flag_implies_open_handle_witness :
  AudioStreamer.flags_have_handles
    (AudioStreamer.after_calls Examples.session Examples.fresh_sink).
Proof.
  apply (@streaming_flag_implies_open_handle bytes_numpy Examples.session
           Examples.fresh_sink).
  split; intros E; vm_compute in E; discriminate E.
Defined.

(** X3, along the session on a new sink. *)
Lemma chunk_size_stays_in_range_witness :
  256 <= AudioStreamer.chunk_size
           (AudioStreamer.after_calls Examples.session Examples.fresh_sink)
      <= 4096.
Proof.
  apply (@chunk_size_stays_in_range bytes_numpy Examples.session Examples.fresh_sink).
  vm_compute. split; discriminate.
Defined.

(** X5, for a tick on the sink holding one chunk. *)
Lemma output_callback_fills_buffer_witness :
  exists out : bytes,
    outcome_of (AudioStreamer._output_callback Examples.good_device 1024
                  Examples.sink_with_one_chunk)
    = Ret (out, AudioStreamer.paContinue)
    /\ len out = 2048.
Proof.
  destruct (@output_callback_fills_buffer bytes_numpy Examples.good_device 1024
              Examples.sink_with_one_chunk) as [out [Hout [Hlen _]]].
  - reflexivity.
  - lia.
  - vm_compute. discriminate.
  - exists out. split; [exact Hout | exact Hlen].
Defined.

(** X6, for one array queued on the started sink and then played. *)
Lemma enqueue_then_tick_is_fifo_witness :
  outcome_of (AudioStreamer.queue_audio Examples.chunk2 Examples.started_sink) = Ret true.
Proof.
  refine (proj1 (@enqueue_then_tick_is_fifo bytes_numpy Examples.good_device 1024
                   Examples.started_sink Examples.samples2
                   (AudioStreamer.queued_form Examples.started_sink Examples.samples2)
                   [] _ _ _ _ _)).
  - reflexivity.
  - reflexivity.
  - lia.
  - vm_compute. discriminate.
  - reflexivity.
Defined.

(** X7, for two arrays streamed into the started sink. *)
Lemma stream_generator_fills_to_capacity_witness :
  AudioStreamer.audio_queue
    (state_of (AudioStreamer.stream_audio_generator
                 (AudioStreamer.generator_of
                    (map (@AudioStreamer.Nd bytes_numpy)
                         [Examples.samples2; Examples.samples3]))
                 Examples.started_sink))
  = [@AudioStreamer.Nd bytes_numpy Examples.samples2;
     @AudioStreamer.Nd bytes_numpy Examples.samples3].
Proof.
  refine (eq_trans
            (proj1 (proj2 (@stream_generator_fills_to_capacity bytes_numpy
                             [Examples.samples2; Examples.samples3]
                             Examples.started_sink _)))
            _).
  - reflexivity.
  - reflexivity.
Defined.

(** X9, for the synthesizing generator on a sink that was never started:
    the synthesis is made, nothing is queued. *)
Lemma idle_sink_advances_generator_once_witness :
  AudioStreamer.stream_audio_generator Examples.synthesizing_generator Examples.fresh_sink
  = (Ret tt, Examples.fresh_sink, [Invoke 1 MSynthesize "hello" "auto" None]).
Proof.
  refine (proj1 (@idle_sink_advances_generator_once bytes_numpy
                   Examples.synthesizing_generator Examples.fresh_sink _)).
  reflexivity.
Defined.

(** X12, for a sink with a PyAudio instance on the device that cannot start
    a thread: the start is reported as failed and the sink streams. *)
Lemma start_output_stream_outcome_witness :
  outcome_of (AudioStreamer.start_output_stream Examples.no_thread_device None
                Examples.initialized_sink)
  = Ret false
  /\ AudioStreamer.is_streaming
       (state_of (AudioStreamer.start_output_stream Examples.no_thread_device None
                    Examples.initialized_sink))
     = true.
Proof.
  destruct (@start_output_stream_outcome bytes_numpy Examples.no_thread_device None
              Examples.initialized_sink) as [started [Hout [_ [_ [Hfail _]]]]].
  destruct (Hfail 1%nat 7%nat DeviceError eq_refl eq_refl eq_refl eq_refl)
    as [Hstarted [Hstreaming _]].
  rewrite Hstarted in Hout. split; [exact Hout | exact Hstreaming].
Defined.

(** X14, for a user callback that raises. *)
Lemma input_callback_passes_data_through_witness :
  outcome_of (AudioStreamer._input_callback Examples.good_device
                (fun _ => raise EngineFailure) [Byte.x01] Examples.sink_with_callback)
  = Ret ([Byte.x01], AudioStreamer.paContinue).
Proof.
  refine (proj1 (proj1 (@input_callback_passes_data_through bytes_numpy
                          Examples.good_device (fun _ => raise EngineFailure)
                          [Byte.x01] Examples.sink_with_callback) _)).
  reflexivity.
Defined.

(** X13, on a new sink: 1024 becomes 2048. *)
Lemma unplayed_sink_keeps_doubling_witness :
  AudioStreamer.chunk_size
    (state_of (AudioStreamer.adjust_latency AudioStreamer.default_target_latency_ms
                 Examples.fresh_sink))
  = 2048.
Proof.
  destruct (@unplayed_sink_keeps_doubling bytes_numpy Examples.good_device
              Examples.fresh_sink eq_refl eq_refl) as [_ [Hadj _]].
  rewrite Hadj. reflexivity.
Defined.

(** X16, on a manager that was never initialized. *)
Lemma synthesize_refuses_without_engine_witness :
  @VoiceManager.synthesize bytes_numpy "hello" None "auto" VoiceManager.BATCH
    VoiceManager.__init__
  = (Ret None, VoiceManager.__init__, [Log ERROR "Voice Manager not initialized"]).
Proof.
  refine (proj1 (@synthesize_refuses_without_engine bytes_numpy VoiceManager.__init__
                   "hello" "auto" None VoiceManager.BATCH) _).
  reflexivity.
Defined.

(** X19, for a profile added to the default manager. *)
Lemma added_profile_is_found_by_name_witness :
  VoiceManager._get_voice_profile
    (state_of (VoiceManager.add_voice_profile Examples.other_cute_girl
                 (Examples.manager_of Examples.E1 Examples.E2)))
    (Some "cute_girl")
  = Some Examples.other_cute_girl.
Proof.
  refine (proj1 (proj2 (proj2 (@added_profile_is_found_by_name bytes_numpy
                                 (Examples.manager_of Examples.E1 Examples.E2)
                                 Examples.other_cute_girl))) _).
  discriminate.
Defined.

(** X20, for a name the default manager does not know. *)
Lemma set_current_profile_outcome_witness :
  VoiceManager.set_current_profile "nobody" (Examples.manager_of Examples.E1 Examples.E2)
  = (Ret false, Examples.manager_of Examples.E1 Examples.E2,
     [Log ERROR "Voice profile not found"]).
Proof.
  refine (proj2 (@set_current_profile_outcome bytes_numpy
                   (Examples.manager_of Examples.E1 Examples.E2) "nobody") _).
  vm_compute. reflexivity.
Defined.

(** X21, on the default manager: [cute_girl] is replaced by a profile of
    another pitch, and the current profile is still the old one. *)
Lemma replaced_profile_leaves_current_stale_witness :
  VoiceManager.current_profile
    (state_of (VoiceManager.add_voice_profile Examples.other_cute_girl
                 (state_of (VoiceManager.set_current_profile "cute_girl"
                              (Examples.manager_of Examples.E1 Examples.E2)))))
  = Some VoiceManager.cute_girl.
Proof.
  refine (proj2 (proj2 (@replaced_profile_leaves_current_stale bytes_numpy
                          (Examples.manager_of Examples.E1 Examples.E2) "cute_girl"
                          VoiceManager.cute_girl Examples.other_cute_girl _ _ _))).
  - discriminate.
  - vm_compute. reflexivity.
  - reflexivity.
Defined.

(** X23, for a key the manager has no engine for. *)
Lemma switch_engine_outcome_witness :
  VoiceManager.switch_engine Config.REALTIME_TTS
    (Examples.manager_of Examples.E1 Examples.E2)
  = (Ret false, Examples.manager_of Examples.E1 Examples.E2,
     [Log ERROR "Engine not found"]).
Proof.
  refine (proj2 (@switch_engine_outcome bytes_numpy
                   (Examples.manager_of Examples.E1 Examples.E2)
                   Config.REALTIME_TTS) _).
  vm_compute. reflexivity.
Defined.

(** X25, for a chunk size of zero. *)
Lemma convert_to_streaming_without_chunks_witness :
  @VoiceManager._convert_to_streaming bytes_numpy Examples.samples2 0
  = ([], [Log ERROR "Audio conversion failed"]).
Proof.
  apply (@convert_to_streaming_without_chunks bytes_numpy Examples.samples2 0).
  lia.
Defined.

(** X26, for four bytes in chunks of one sample: two chunks. *)
Lemma convert_to_streaming_chunk_count_witness :
  len (fst (@VoiceManager._convert_to_streaming bytes_numpy Examples.samples2 1)) = 2.
Proof.
  refine (eq_trans
            (proj1 (@convert_to_streaming_chunk_count bytes_numpy Examples.samples2 1 _))
            _).
  - lia.
  - reflexivity.
Defined.

(** X27, for five samples in chunks of two. *)
Lemma engine_streaming_slices_the_buffer_witness :
  List.concat
    (Engines.chunks_of
       (fst (Engines.xtts_synthesize_streaming
               (Ret (Some [1%nat; 2%nat; 3%nat; 4%nat; 5%nat])) 2)))
  = [1%nat; 2%nat; 3%nat; 4%nat; 5%nat].
Proof.
  refine (proj1 (proj2 (proj2 (proj2
            (@engine_streaming_slices_the_buffer nat
               [1%nat; 2%nat; 3%nat; 4%nat; 5%nat] 2 _))))).
  lia.
Defined.

(** X17, for the default settings with both engines loading: batch mode
    finds an engine. *)
Lemma initialize_then_every_mode_has_an_engine_witness :
  exists e,
    VoiceManager._select_engine (Examples.manager_of Examples.E1 Examples.E2)
      VoiceManager.BATCH
    = Some e.
Proof.
  destruct (@initialize_then_every_mode_has_an_engine bytes_numpy
              Config.default_settings
              {| VoiceManager.xtts_engine := Examples.E1;
                 VoiceManager.xtts_load_model := true;
                 VoiceManager.chattts_engine := Examples.E2;
                 VoiceManager.chattts_load_model := true;
                 VoiceManager.realtime_engine := Examples.realtime_backend;
                 VoiceManager.realtime_initialize := false |}
              VoiceManager.__init__) as [ok [Hout [_ [_ [Hsel _]]]]].
  apply Hsel.
  vm_compute in Hout. injection Hout as <-. reflexivity.
Defined.

(** X22, for a second [cute_girl] added to the default manager: the names
    are the three defaults, in their order. *)
Lemma profile_names_keep_insertion_order_witness :
  VoiceManager.get_available_profiles
    (state_of (VoiceManager.add_voice_profile Examples.other_cute_girl
                 (Examples.manager_of Examples.E1 Examples.E2)))
  = ["cute_girl"; "asmr_girl"; "energetic_girl"]%string.
Proof.
  refine (eq_trans
            (proj1 (@profile_names_keep_insertion_order bytes_numpy
                      (Examples.manager_of Examples.E1 Examples.E2)
                      Examples.other_cute_girl))
            _).
  vm_compute. reflexivity.
Defined.

(** X28, for a negative chunk size. *)
Lemma engine_streaming_failures_witness :
  fst (Engines.xtts_synthesize_streaming (Ret (Some [1%nat; 2%nat])) (-1)) = [].
Proof.
  refine (proj1 (proj2 (proj2 (proj2 (engine_streaming_failures nat (-1))))
                   [1%nat; 2%nat] _)).
  lia.
Defined.
